(** * openvpn/mbedtls/crypto/cipheraead.hpp: the mbed TLS AEAD wrapper

    A shallow embedding of [openvpn::MbedTLSCrypto::CipherContextAEAD].

    The header holds two generations of the class.  The later one (the
    constructor taking [initialized(false)], [init], [encrypt], [decrypt],
    [is_supported], [cipher_type], [erase], [check_initialized] and the four
    [gcm_*] / [chachapoly_*] methods) drives the mbed TLS GCM and
    ChaCha20-Poly1305 modules directly and takes the tag in a buffer of its
    own; it is embedded at the top level of this file.  The earlier one
    ([encrypt] and [decrypt] over [mbedtls_cipher_auth_*_ext]) expects the
    tag at the end of the input; it is embedded in [Module TagAtEnd].

    mbed TLS itself is not part of the repository: its entry points are the
    fields of the class [Mbedtls], and every theorem is stated for an
    arbitrary implementation of that class. *)

From Stdlib Require Import ZArith List String Bool Lia DecimalString.
Import ListNotations.
Open Scope Z_scope.

(** ** Buffers and machine integers *)

(** An [unsigned char] buffer is the list of its bytes, each a [Z]. *)
Definition bytes := list Z.

(** The number of bytes of a buffer, as the [size_t] a caller passes. *)
Definition len (b : bytes) : Z := Z.of_nat (List.length b).

(** [size_t] arithmetic on a 64-bit target wraps modulo [2^64]. *)
Definition size_t_max_plus_1 : Z := 2 ^ 64.
Definition size_t_sub (a b : Z) : Z := (a - b) mod size_t_max_plus_1.
Definition size_t_add (a b : Z) : Z := (a + b) mod size_t_max_plus_1.

(** The unnamed enum of the class. *)
Definition IV_LEN : Z := 12.
Definition AUTH_TAG_LEN : Z := 16.
Definition SUPPORTS_IN_PLACE_ENCRYPT : Z := 1.

(** [ostream << int]. *)
Definition show_int (status : Z) : string := NilZero.string_of_int (Z.to_int status).

(** ** The algorithm catalogue *)

Module CryptoAlgs.

(** Modelled from the spec: the enumeration [CryptoAlgs::Type] is declared in
    openvpn/crypto/cryptoalgs.hpp, which is not among the sources.  The four
    AEAD members are the ones the header names; [other n] stands for every
    further member of the catalogue (ciphers that are not AEAD, digests,
    [NONE]). *)
Inductive Type' : Set :=
| AES_128_GCM
| AES_192_GCM
| AES_256_GCM
| CHACHA20_POLY1305
| other (n : nat).

(** [CryptoAlgs::name], of the same absent header: the catalogue's printable
    name of an algorithm, which the header puts into its error texts. *)
Class Names : Type := { name : Type' -> string }.

End CryptoAlgs.

(** ** What mbed TLS provides *)

(** [mbedtls_cipher_id_t], as far as the header uses it. *)
Inductive mbedtls_cipher_id_t : Set :=
| MBEDTLS_CIPHER_ID_NONE
| MBEDTLS_CIPHER_ID_AES
| MBEDTLS_CIPHER_ID_CHACHA20.

Definition mbedtls_cipher_id_eqb (a b : mbedtls_cipher_id_t) : bool :=
  match a, b with
  | MBEDTLS_CIPHER_ID_NONE, MBEDTLS_CIPHER_ID_NONE
  | MBEDTLS_CIPHER_ID_AES, MBEDTLS_CIPHER_ID_AES
  | MBEDTLS_CIPHER_ID_CHACHA20, MBEDTLS_CIPHER_ID_CHACHA20 => true
  | _, _ => false
  end.

Definition MBEDTLS_GCM_ENCRYPT : Z := 1.
Definition MBEDTLS_GCM_DECRYPT : Z := 0.

(** The entry points the header calls.  A context argument the C function
    updates in place comes back as a result; a buffer the C function fills
    ([output], [tag], [olen]) is a result as well, after the [int] status.
    The one-shot calls ([crypt_and_tag], [auth_decrypt], [encrypt_and_tag],
    [auth_*_ext]) restart the stream on every call and are functions of the
    keyed context, which they leave as it is.  [mbedtls_*_init] writes a
    context without reading it, so it is the value written.  A [tag] read by
    a decryption is a pointer that may be null: [None]. *)
Class Mbedtls : Type := {
  mbedtls_gcm_context : Type;
  mbedtls_chachapoly_context : Type;
  mbedtls_cipher_context_t : Type;

  mbedtls_gcm_init : mbedtls_gcm_context;
  mbedtls_gcm_setkey :
    mbedtls_gcm_context -> mbedtls_cipher_id_t -> forall (key : bytes) (keybits : Z),
    mbedtls_gcm_context * Z;
  mbedtls_gcm_crypt_and_tag :
    mbedtls_gcm_context -> forall (mode length : Z) (iv : bytes) (iv_len : Z)
      (add : bytes) (add_len : Z) (input : bytes) (tag_len : Z),
    Z * bytes * bytes;
  mbedtls_gcm_auth_decrypt :
    mbedtls_gcm_context -> forall (length : Z) (iv : bytes) (iv_len : Z)
      (add : bytes) (add_len : Z) (tag : option bytes) (tag_len : Z) (input : bytes),
    Z * bytes;
  mbedtls_gcm_free : mbedtls_gcm_context -> mbedtls_gcm_context;

  mbedtls_chachapoly_init : mbedtls_chachapoly_context;
  mbedtls_chachapoly_setkey :
    mbedtls_chachapoly_context -> forall (key : bytes), mbedtls_chachapoly_context * Z;
  mbedtls_chachapoly_encrypt_and_tag :
    mbedtls_chachapoly_context -> forall (length : Z) (nonce : bytes)
      (aad : bytes) (aad_len : Z) (input : bytes),
    Z * bytes * bytes;
  mbedtls_chachapoly_auth_decrypt :
    mbedtls_chachapoly_context -> forall (length : Z) (nonce : bytes)
      (aad : bytes) (aad_len : Z) (tag : option bytes) (input : bytes),
    Z * bytes;
  mbedtls_chachapoly_free : mbedtls_chachapoly_context -> mbedtls_chachapoly_context;

  mbedtls_cipher_auth_encrypt_ext :
    mbedtls_cipher_context_t -> forall (iv : bytes) (iv_len : Z) (ad : bytes) (ad_len : Z)
      (input : bytes) (ilen : Z) (output_len : Z) (tag_len : Z),
    Z * bytes * Z;
  mbedtls_cipher_auth_decrypt_ext :
    mbedtls_cipher_context_t -> forall (iv : bytes) (iv_len : Z) (ad : bytes) (ad_len : Z)
      (input : bytes) (ilen : Z) (output_len : Z) (tag_len : Z),
    Z * bytes * Z
}.

(** One entry per call into mbed TLS, with the scalar arguments it is given. *)
Inductive native_call : Set :=
| call_gcm_init
| call_gcm_setkey (cipher : mbedtls_cipher_id_t) (keybits : Z)
| call_gcm_crypt_and_tag (mode length iv_len add_len tag_len : Z)
| call_gcm_auth_decrypt (length iv_len add_len tag_len : Z)
| call_gcm_free
| call_chachapoly_init
| call_chachapoly_setkey
| call_chachapoly_encrypt_and_tag (length aad_len : Z)
| call_chachapoly_auth_decrypt (length aad_len : Z)
| call_chachapoly_free
| call_cipher_auth_encrypt_ext (iv_len ad_len ilen output_len tag_len : Z)
| call_cipher_auth_decrypt_ext (iv_len ad_len ilen output_len tag_len : Z).

(** ** Exceptions and the method monad *)

(** [OPENVPN_EXCEPTION(mbedtls_aead_error)]: the one exception class of the
    header, told apart by its text. *)
Inductive exception : Set :=
| mbedtls_aead_error (what : string).

Inductive outcome (A : Type) : Type :=
| Ok (a : A)
| Throw (e : exception).

Arguments Ok {A} a.
Arguments Throw {A} e.

(** A method of an object of type [S]: it returns or throws, leaves the
    object in a new state either way (what was assigned before a [throw]
    stays assigned), and makes calls into mbed TLS, listed in order. *)
Definition M (S A : Type) : Type := S -> outcome A * S * list native_call.

Definition ret {S A} (a : A) : M S A := fun s => (Ok a, s, []).

Definition bind {S A B} (m : M S A) (f : A -> M S B) : M S B :=
  fun s =>
    match m s with
    | (Ok a, s1, l1) => let '(r, s2, l2) := f a s1 in (r, s2, l1 ++ l2)
    | (Throw e, s1, l1) => (Throw e, s1, l1)
    end.

Definition throw {S A} (e : exception) : M S A := fun s => (Throw e, s, []).
Definition this {S} : M S S := fun s => (Ok s, s, []).
Definition assign {S} (f : S -> S) : M S unit := fun s => (Ok tt, f s, []).
Definition native {S} (c : native_call) : M S unit := fun s => (Ok tt, s, [c]).

(** A static member function: no object, only a result or an exception. *)
Definition static {S A} (r : outcome A) : M S A := fun s => (r, s, []).

Declare Scope method_scope.
Delimit Scope method_scope with method.
Notation "x <- m ;; k" := (bind m (fun x => k))
  (at level 61, m at next level, right associativity) : method_scope.
Notation "m ;; k" := (bind m (fun _ => k))
  (at level 61, right associativity) : method_scope.
Open Scope method_scope.

(** The three observations of a finished call. *)
Definition result {S A} (r : outcome A * S * list native_call) : outcome A := fst (fst r).
Definition object {S A} (r : outcome A * S * list native_call) : S := snd (fst r).
Definition calls {S A} (r : outcome A * S * list native_call) : list native_call := snd r.

(** ** The class, as it drives GCM and ChaCha20-Poly1305 directly *)

(** What [aead_encrypt] and [aead_decrypt] can point to. *)
Inductive encrypt_method : Set :=
| to_gcm_encrypt
| to_chachapoly_encrypt.

Inductive decrypt_method : Set :=
| to_gcm_decrypt
| to_chachapoly_decrypt.

Section CipherContextAEAD.

Context {N : Mbedtls} {names : CryptoAlgs.Names}.

(** The data members. *)
Record CipherContextAEAD : Type := {
  initialized : bool;
  gcm_ctx : mbedtls_gcm_context;
  chachapoly_ctx : mbedtls_chachapoly_context;
  crypto_alg : CryptoAlgs.Type';
  aead_encrypt : encrypt_method;
  aead_decrypt : decrypt_method
}.

Definition set_initialized (b : bool) (c : CipherContextAEAD) : CipherContextAEAD :=
  {| initialized := b; gcm_ctx := gcm_ctx c; chachapoly_ctx := chachapoly_ctx c;
     crypto_alg := crypto_alg c; aead_encrypt := aead_encrypt c;
     aead_decrypt := aead_decrypt c |}.

Definition set_gcm_ctx (g : mbedtls_gcm_context) (c : CipherContextAEAD) : CipherContextAEAD :=
  {| initialized := initialized c; gcm_ctx := g; chachapoly_ctx := chachapoly_ctx c;
     crypto_alg := crypto_alg c; aead_encrypt := aead_encrypt c;
     aead_decrypt := aead_decrypt c |}.

Definition set_chachapoly_ctx (p : mbedtls_chachapoly_context) (c : CipherContextAEAD)
  : CipherContextAEAD :=
  {| initialized := initialized c; gcm_ctx := gcm_ctx c; chachapoly_ctx := p;
     crypto_alg := crypto_alg c; aead_encrypt := aead_encrypt c;
     aead_decrypt := aead_decrypt c |}.

Definition set_crypto_alg (a : CryptoAlgs.Type') (c : CipherContextAEAD) : CipherContextAEAD :=
  {| initialized := initialized c; gcm_ctx := gcm_ctx c; chachapoly_ctx := chachapoly_ctx c;
     crypto_alg := a; aead_encrypt := aead_encrypt c; aead_decrypt := aead_decrypt c |}.

Definition set_methods (e : encrypt_method) (d : decrypt_method) (c : CipherContextAEAD)
  : CipherContextAEAD :=
  {| initialized := initialized c; gcm_ctx := gcm_ctx c; chachapoly_ctx := chachapoly_ctx c;
     crypto_alg := crypto_alg c; aead_encrypt := e; aead_decrypt := d |}.

Definition method (A : Type) : Type := M CipherContextAEAD A.

(** [CipherContextAEAD() : initialized(false)].  The other members are not
    written by the constructor: they hold whatever the storage held. *)
Definition constructor (g : mbedtls_gcm_context) (p : mbedtls_chachapoly_context)
    (a : CryptoAlgs.Type') (e : encrypt_method) (d : decrypt_method) : CipherContextAEAD :=
  {| initialized := false; gcm_ctx := g; chachapoly_ctx := p; crypto_alg := a;
     aead_encrypt := e; aead_decrypt := d |}.

(** [static cipher_type(alg, keysize)]: the cipher id returned and the value
    left in [keysize]. *)
Definition cipher_type (alg : CryptoAlgs.Type') : outcome (mbedtls_cipher_id_t * Z) :=
  match alg with
  | CryptoAlgs.AES_128_GCM => Ok (MBEDTLS_CIPHER_ID_AES, 16)
  | CryptoAlgs.AES_192_GCM => Ok (MBEDTLS_CIPHER_ID_AES, 24)
  | CryptoAlgs.AES_256_GCM => Ok (MBEDTLS_CIPHER_ID_AES, 32)
  | CryptoAlgs.CHACHA20_POLY1305 => Ok (MBEDTLS_CIPHER_ID_CHACHA20, 32)
  | CryptoAlgs.other _ =>
      Throw (mbedtls_aead_error (CryptoAlgs.name alg ++ ": not usable"))
  end.

(** [static is_supported(alg)] and [static is_supported(libctx, alg)]. *)
Definition is_supported (alg : CryptoAlgs.Type') : outcome bool :=
  match cipher_type alg with
  | Ok (cid, _) => Ok (negb (mbedtls_cipher_id_eqb cid MBEDTLS_CIPHER_ID_NONE))
  | Throw e => Throw e
  end.

Definition is_supported_libctx (libctx : Z) (alg : CryptoAlgs.Type') : outcome bool :=
  match cipher_type alg with
  | Ok (cid, _) => Ok (negb (mbedtls_cipher_id_eqb cid MBEDTLS_CIPHER_ID_NONE))
  | Throw e => Throw e
  end.

Definition is_initialized : method bool :=
  c <- this ;; ret (initialized c).

Definition check_initialized : method unit :=
  c <- this ;;
  if negb (initialized c) then throw (mbedtls_aead_error "uninitialized") else ret tt.

(** The calls into mbed TLS that update a member. *)
Definition gcm_free : method unit :=
  native call_gcm_free ;; assign (fun c => set_gcm_ctx (mbedtls_gcm_free (gcm_ctx c)) c).

Definition chachapoly_free : method unit :=
  native call_chachapoly_free ;;
  assign (fun c => set_chachapoly_ctx (mbedtls_chachapoly_free (chachapoly_ctx c)) c).

Definition gcm_init : method unit :=
  native call_gcm_init ;; assign (set_gcm_ctx mbedtls_gcm_init).

Definition chachapoly_init : method unit :=
  native call_chachapoly_init ;; assign (set_chachapoly_ctx mbedtls_chachapoly_init).

Definition gcm_setkey (cid : mbedtls_cipher_id_t) (key : bytes) (keybits : Z) : method Z :=
  c <- this ;;
  let '(g, status) := mbedtls_gcm_setkey (gcm_ctx c) cid key keybits in
  native (call_gcm_setkey cid keybits) ;;
  assign (set_gcm_ctx g) ;;
  ret status.

Definition chachapoly_setkey (key : bytes) : method Z :=
  c <- this ;;
  let '(p, status) := mbedtls_chachapoly_setkey (chachapoly_ctx c) key in
  native call_chachapoly_setkey ;;
  assign (set_chachapoly_ctx p) ;;
  ret status.

Definition erase : method unit :=
  c <- this ;;
  if initialized c then
    match crypto_alg c with
    | CryptoAlgs.AES_128_GCM
    | CryptoAlgs.AES_192_GCM
    | CryptoAlgs.AES_256_GCM => gcm_free
    | CryptoAlgs.CHACHA20_POLY1305 => chachapoly_free
    | CryptoAlgs.other _ => ret tt
    end ;;
    assign (set_initialized false)
  else ret tt.

(** [~CipherContextAEAD()]. *)
Definition destructor : method unit := erase.

Definition init (libctx : Z) (alg : CryptoAlgs.Type') (key : bytes) (keysize : Z) (mode : Z)
  : method unit :=
  erase ;;
  assign (set_crypto_alg alg) ;;
  ct <- static (cipher_type alg) ;;
  let '(cid, ckeysz) := ct in
  if mbedtls_cipher_id_eqb cid MBEDTLS_CIPHER_ID_NONE
  then throw (mbedtls_aead_error (CryptoAlgs.name alg ++ ": not usable"))
  else
  if ckeysz >? keysize
  then throw (mbedtls_aead_error "insufficient key material")
  else
  c <- this ;;
  match crypto_alg c with
  | CryptoAlgs.AES_128_GCM
  | CryptoAlgs.AES_192_GCM
  | CryptoAlgs.AES_256_GCM =>
      gcm_init ;;
      status <- gcm_setkey cid key (ckeysz * 8) ;;
      if status <? 0
      then throw (mbedtls_aead_error "mbedtls_gcm_setkey")
      else assign (set_methods to_gcm_encrypt to_gcm_decrypt)
  | CryptoAlgs.CHACHA20_POLY1305 =>
      chachapoly_init ;;
      status <- chachapoly_setkey key ;;
      if status <? 0
      then throw (mbedtls_aead_error "mbedtls_chachapoly_setkey")
      else assign (set_methods to_chachapoly_encrypt to_chachapoly_decrypt)
  | CryptoAlgs.other _ =>
      throw (mbedtls_aead_error (CryptoAlgs.name (crypto_alg c) ++ ": not usable"))
  end ;;
  assign (set_initialized true).

(** The four cipher-specific methods.  An encryption returns what it wrote
    to [output] and to [tag]; a decryption returns its [bool] and what the
    native call left in [output]. *)
Definition gcm_encrypt (input : bytes) (length : Z) (iv : bytes) (ad : bytes) (ad_len : Z)
  : method (bytes * bytes) :=
  c <- this ;;
  let '(status, output, tag) :=
    mbedtls_gcm_crypt_and_tag (gcm_ctx c) MBEDTLS_GCM_ENCRYPT length iv IV_LEN
                              ad ad_len input AUTH_TAG_LEN in
  native (call_gcm_crypt_and_tag MBEDTLS_GCM_ENCRYPT length IV_LEN ad_len AUTH_TAG_LEN) ;;
  if status =? 0 then ret (output, tag)
  else throw (mbedtls_aead_error
                ("mbedtls_gcm_crypt_and_tag failed with status=" ++ show_int status)).

Definition gcm_decrypt (input : bytes) (length : Z) (iv : bytes) (tag : option bytes)
    (ad : bytes) (ad_len : Z) : method (bool * bytes) :=
  c <- this ;;
  let '(status, output) :=
    mbedtls_gcm_auth_decrypt (gcm_ctx c) length iv IV_LEN ad ad_len tag AUTH_TAG_LEN input in
  native (call_gcm_auth_decrypt length IV_LEN ad_len AUTH_TAG_LEN) ;;
  ret (status =? 0, output).

Definition chachapoly_encrypt (input : bytes) (length : Z) (iv : bytes) (ad : bytes)
    (ad_len : Z) : method (bytes * bytes) :=
  c <- this ;;
  let '(status, output, tag) :=
    mbedtls_chachapoly_encrypt_and_tag (chachapoly_ctx c) length iv ad ad_len input in
  native (call_chachapoly_encrypt_and_tag length ad_len) ;;
  if status =? 0 then ret (output, tag)
  else throw (mbedtls_aead_error
                ("mbedtls_chachapoly_encrypt_and_tag failed with status="
                 ++ show_int status)).

Definition chachapoly_decrypt (input : bytes) (length : Z) (iv : bytes) (tag : option bytes)
    (ad : bytes) (ad_len : Z) : method (bool * bytes) :=
  c <- this ;;
  let '(status, output) :=
    mbedtls_chachapoly_auth_decrypt (chachapoly_ctx c) length iv ad ad_len tag input in
  native (call_chachapoly_auth_decrypt length ad_len) ;;
  ret (status =? 0, output).

(** [(this->*aead_encrypt)(...)] and [(this->*aead_decrypt)(...)]. *)
Definition encrypt (input : bytes) (length : Z) (iv : bytes) (ad : bytes) (ad_len : Z)
  : method (bytes * bytes) :=
  check_initialized ;;
  c <- this ;;
  match aead_encrypt c with
  | to_gcm_encrypt => gcm_encrypt input length iv ad ad_len
  | to_chachapoly_encrypt => chachapoly_encrypt input length iv ad ad_len
  end.

Definition decrypt (input : bytes) (length : Z) (iv : bytes) (tag : option bytes)
    (ad : bytes) (ad_len : Z) : method (bool * bytes) :=
  check_initialized ;;
  c <- this ;;
  match aead_decrypt c with
  | to_gcm_decrypt => gcm_decrypt input length iv tag ad ad_len
  | to_chachapoly_decrypt => chachapoly_decrypt input length iv tag ad ad_len
  end.

End CipherContextAEAD.

(** ** The class, as it goes through the generic cipher layer *)

(** The earlier [encrypt] and [decrypt] of the header, over
    [mbedtls_cipher_auth_encrypt_ext] and [mbedtls_cipher_auth_decrypt_ext]:
    the tag travels at the end of the ciphertext, and [length] counts it on
    decryption.  The cipher context [ctx] is a member of the base class
    [CipherContextCommon], which is not among the sources; so are [erase]
    and [check_mode] of this generation, and its [cipher_type] is cut short
    in the header, which is why its [init] is not embedded. *)
Module TagAtEnd.

Section CipherContextAEAD.

Context {N : Mbedtls}.

Record CipherContextAEAD : Type := {
  initialized : bool;
  ctx : mbedtls_cipher_context_t
}.

Definition method (A : Type) : Type := M CipherContextAEAD A.

Definition check_initialized : method unit :=
  c <- this ;;
  if negb (initialized c) then throw (mbedtls_aead_error "uninitialized") else ret tt.

Definition is_initialized : method bool :=
  c <- this ;; ret (initialized c).

(** [encrypt]: what was written to [output]; [tag] is not touched. *)
Definition encrypt (input : bytes) (length : Z) (iv : bytes) (ad : bytes) (ad_len : Z)
  : method bytes :=
  check_initialized ;;
  c <- this ;;
  let output_len := size_t_add length AUTH_TAG_LEN in
  let '(status, output, olen) :=
    mbedtls_cipher_auth_encrypt_ext (ctx c) iv IV_LEN ad ad_len input length
                                    output_len AUTH_TAG_LEN in
  native (call_cipher_auth_encrypt_ext IV_LEN ad_len length output_len AUTH_TAG_LEN) ;;
  if status =? 0 then ret output
  else throw (mbedtls_aead_error
                ("mbedtls_cipher_auth_encrypt failed with status=" ++ show_int status)).

(** [decrypt]: its [bool] and what the native call left in [output]. *)
Definition decrypt (input : bytes) (length : Z) (iv : bytes) (tag : option bytes)
    (ad : bytes) (ad_len : Z) : method (bool * bytes) :=
  check_initialized ;;
  match tag with
  | Some _ => throw (mbedtls_aead_error "tag must be null for aead decrypt")
  | None =>
      c <- this ;;
      let output_len := size_t_sub length AUTH_TAG_LEN in
      let '(status, output, olen) :=
        mbedtls_cipher_auth_decrypt_ext (ctx c) iv IV_LEN ad ad_len input length
                                        output_len AUTH_TAG_LEN in
      native (call_cipher_auth_decrypt_ext IV_LEN ad_len length output_len AUTH_TAG_LEN) ;;
      ret ((olen =? size_t_sub length AUTH_TAG_LEN) && (status =? 0), output)
  end.

End CipherContextAEAD.

End TagAtEnd.

(** ** Two small implementations of [Mbedtls]

    They stand in for the library where a statement is run on concrete
    buffers.  [xor_aead] is a working AEAD of toy strength: the key and the
    nonce fold into a one-byte pad that is xor-ed over the data, and the tag
    carries the xor checksums of ciphertext and associated data.
    [alloc_failure] is the same library when no memory is left for a cipher
    context: [mbedtls_gcm_setkey], the setup call that allocates one,
    returns [MBEDTLS_ERR_CIPHER_ALLOC_FAILED]. *)
Module Small.

Definition MBEDTLS_ERR_GCM_AUTH_FAILED : Z := -18.
Definition MBEDTLS_ERR_GCM_BAD_INPUT : Z := -20.
Definition MBEDTLS_ERR_CHACHAPOLY_AUTH_FAILED : Z := -86.
Definition MBEDTLS_ERR_CHACHAPOLY_BAD_STATE : Z := -84.
Definition MBEDTLS_ERR_CIPHER_BAD_INPUT_DATA : Z := -24832.
Definition MBEDTLS_ERR_CIPHER_ALLOC_FAILED : Z := -24960.
Definition MBEDTLS_ERR_CIPHER_AUTH_FAILED : Z := -25344.

Definition take (n : Z) (b : bytes) : bytes := firstn (Z.to_nat n) b.
Definition drop (n : Z) (b : bytes) : bytes := skipn (Z.to_nat n) b.
Definition zeroes (n : Z) : bytes := repeat 0 (Z.to_nat n).

Definition xor_all (b : bytes) : Z := fold_right Z.lxor 0 b.
Definition pad (key nonce : bytes) : Z := Z.lxor (xor_all key) (xor_all nonce).
Definition crypt (key nonce data : bytes) : bytes := map (Z.lxor (pad key nonce)) data.
Definition mac (key nonce ad ct : bytes) : bytes :=
  [xor_all ct; xor_all ad; pad key nonce] ++ repeat 0 13%nat.

Definition same_bytes (a b : bytes) : bool :=
  if list_eq_dec Z.eq_dec a b then true else false.

(** A keyed context is the key it holds. *)
Definition context : Type := option bytes.

Definition gcm_setkey (g : context) (cipher : mbedtls_cipher_id_t) (key : bytes) (keybits : Z)
  : context * Z :=
  match cipher with
  | MBEDTLS_CIPHER_ID_AES =>
      if (keybits =? 128) || (keybits =? 192) || (keybits =? 256)
      then (Some (take (keybits / 8) key), 0)
      else (g, MBEDTLS_ERR_GCM_BAD_INPUT)
  | _ => (g, MBEDTLS_ERR_GCM_BAD_INPUT)
  end.

Definition gcm_crypt_and_tag (g : context) (mode length : Z) (iv : bytes) (iv_len : Z)
    (add : bytes) (add_len : Z) (input : bytes) (tag_len : Z) : Z * bytes * bytes :=
  match g with
  | None => (MBEDTLS_ERR_GCM_BAD_INPUT, [], [])
  | Some key =>
      let nonce := take iv_len iv in
      let output := crypt key nonce (take length input) in
      let ct := if mode =? MBEDTLS_GCM_ENCRYPT then output else take length input in
      (0, output, take tag_len (mac key nonce (take add_len add) ct))
  end.

Definition gcm_auth_decrypt (g : context) (length : Z) (iv : bytes) (iv_len : Z)
    (add : bytes) (add_len : Z) (tag : option bytes) (tag_len : Z) (input : bytes)
  : Z * bytes :=
  match tag with
  | None => (MBEDTLS_ERR_GCM_BAD_INPUT, [])
  | Some t =>
      let '(status, output, check) :=
        gcm_crypt_and_tag g MBEDTLS_GCM_DECRYPT length iv iv_len add add_len input tag_len in
      if status =? 0 then
        if same_bytes (take tag_len t) check then (0, output)
        else (MBEDTLS_ERR_GCM_AUTH_FAILED, zeroes length)
      else (status, [])
  end.

Definition chachapoly_setkey (p : context) (key : bytes) : context * Z :=
  (Some (take 32 key), 0).

Definition chachapoly_encrypt_and_tag (p : context) (length : Z) (nonce : bytes)
    (aad : bytes) (aad_len : Z) (input : bytes) : Z * bytes * bytes :=
  match p with
  | None => (MBEDTLS_ERR_CHACHAPOLY_BAD_STATE, [], [])
  | Some key =>
      let n := take 12 nonce in
      let output := crypt key n (take length input) in
      (0, output, mac key n (take aad_len aad) output)
  end.

Definition chachapoly_auth_decrypt (p : context) (length : Z) (nonce : bytes)
    (aad : bytes) (aad_len : Z) (tag : option bytes) (input : bytes) : Z * bytes :=
  match p, tag with
  | Some key, Some t =>
      let n := take 12 nonce in
      if same_bytes (take 16 t) (mac key n (take aad_len aad) (take length input))
      then (0, crypt key n (take length input))
      else (MBEDTLS_ERR_CHACHAPOLY_AUTH_FAILED, zeroes length)
  | _, _ => (MBEDTLS_ERR_CHACHAPOLY_BAD_STATE, [])
  end.

Definition cipher_auth_encrypt_ext (k : context) (iv : bytes) (iv_len : Z) (ad : bytes)
    (ad_len : Z) (input : bytes) (ilen output_len tag_len : Z) : Z * bytes * Z :=
  match k with
  | None => (MBEDTLS_ERR_CIPHER_BAD_INPUT_DATA, [], 0)
  | Some key =>
      if output_len <? ilen + tag_len then (MBEDTLS_ERR_CIPHER_BAD_INPUT_DATA, [], 0)
      else
        let nonce := take iv_len iv in
        let ct := crypt key nonce (take ilen input) in
        (0, ct ++ take tag_len (mac key nonce (take ad_len ad) ct), ilen + tag_len)
  end.

Definition cipher_auth_decrypt_ext (k : context) (iv : bytes) (iv_len : Z) (ad : bytes)
    (ad_len : Z) (input : bytes) (ilen output_len tag_len : Z) : Z * bytes * Z :=
  match k with
  | None => (MBEDTLS_ERR_CIPHER_BAD_INPUT_DATA, [], 0)
  | Some key =>
      if (ilen <? tag_len) || (output_len <? ilen - tag_len)
      then (MBEDTLS_ERR_CIPHER_BAD_INPUT_DATA, [], 0)
      else
        let nonce := take iv_len iv in
        let ct := take (ilen - tag_len) input in
        let t := take tag_len (drop (ilen - tag_len) input) in
        if same_bytes t (take tag_len (mac key nonce (take ad_len ad) ct))
        then (0, crypt key nonce ct, ilen - tag_len)
        else (MBEDTLS_ERR_CIPHER_AUTH_FAILED, zeroes (ilen - tag_len), 0)
  end.

Definition xor_aead : Mbedtls := {|
  mbedtls_gcm_context := context;
  mbedtls_chachapoly_context := context;
  mbedtls_cipher_context_t := context;
  mbedtls_gcm_init := None;
  mbedtls_gcm_setkey := gcm_setkey;
  mbedtls_gcm_crypt_and_tag := gcm_crypt_and_tag;
  mbedtls_gcm_auth_decrypt := gcm_auth_decrypt;
  mbedtls_gcm_free := fun _ => None;
  mbedtls_chachapoly_init := None;
  mbedtls_chachapoly_setkey := chachapoly_setkey;
  mbedtls_chachapoly_encrypt_and_tag := chachapoly_encrypt_and_tag;
  mbedtls_chachapoly_auth_decrypt := chachapoly_auth_decrypt;
  mbedtls_chachapoly_free := fun _ => None;
  mbedtls_cipher_auth_encrypt_ext := cipher_auth_encrypt_ext;
  mbedtls_cipher_auth_decrypt_ext := cipher_auth_decrypt_ext
|}.

Definition alloc_failure : Mbedtls := {|
  mbedtls_gcm_context := context;
  mbedtls_chachapoly_context := context;
  mbedtls_cipher_context_t := context;
  mbedtls_gcm_init := None;
  mbedtls_gcm_setkey := fun g _ _ _ => (g, MBEDTLS_ERR_CIPHER_ALLOC_FAILED);
  mbedtls_gcm_crypt_and_tag := gcm_crypt_and_tag;
  mbedtls_gcm_auth_decrypt := gcm_auth_decrypt;
  mbedtls_gcm_free := fun _ => None;
  mbedtls_chachapoly_init := None;
  mbedtls_chachapoly_setkey := chachapoly_setkey;
  mbedtls_chachapoly_encrypt_and_tag := chachapoly_encrypt_and_tag;
  mbedtls_chachapoly_auth_decrypt := chachapoly_auth_decrypt;
  mbedtls_chachapoly_free := fun _ => None;
  mbedtls_cipher_auth_encrypt_ext := cipher_auth_encrypt_ext;
  mbedtls_cipher_auth_decrypt_ext := cipher_auth_decrypt_ext
|}.

(** The catalogue's names of the AEAD members, for the error texts. *)
Definition names : CryptoAlgs.Names := {|
  CryptoAlgs.name := fun alg =>
    match alg with
    | CryptoAlgs.AES_128_GCM => "AES-128-GCM"
    | CryptoAlgs.AES_192_GCM => "AES-192-GCM"
    | CryptoAlgs.AES_256_GCM => "AES-256-GCM"
    | CryptoAlgs.CHACHA20_POLY1305 => "CHACHA20-POLY1305"
    | CryptoAlgs.other _ => "[unknown cipher type]"
    end%string
|}.

(** A context as the constructor leaves it, and a keyed context of the
    cipher-layer generation. *)
Definition fresh {N : Mbedtls} : CipherContextAEAD :=
  constructor mbedtls_gcm_init mbedtls_chachapoly_init (CryptoAlgs.other 0)
              to_gcm_encrypt to_gcm_decrypt.

Definition keyed : TagAtEnd.CipherContextAEAD (N := xor_aead) :=
  @TagAtEnd.Build_CipherContextAEAD xor_aead true (Some (repeat 0 32%nat)).

(** Buffers of the two scenarios: an all-zero key and IV around the
    plaintext [hello], and a counting key around the header [header]. *)
Definition zero_key : bytes := repeat 0 32%nat.
Definition zero_iv : bytes := repeat 0 12%nat.
Definition hello : bytes := [104; 101; 108; 108; 111].
Definition hello_tag : bytes := [98; 0; 0; 0; 0; 0; 0; 0; 0; 0; 0; 0; 0; 0; 0; 0].
Definition counting_key : bytes := map Z.of_nat (seq 1 32).
Definition counting_nonce : bytes := map Z.of_nat (seq 64 12).
Definition header : bytes := [104; 101; 97; 100; 101; 114].

(** An object initialised for AES-256-GCM with the all-zero key. *)
Definition aes256 (N : Mbedtls) : CipherContextAEAD :=
  object (init (names := names) 0 CryptoAlgs.AES_256_GCM zero_key 32 1 fresh).

(** An object initialised for ChaCha20-Poly1305 with the counting key. *)
Definition chacha (N : Mbedtls) : CipherContextAEAD :=
  object (init (names := names) 0 CryptoAlgs.CHACHA20_POLY1305 counting_key 32 1 fresh).

End Small.

(** ** Vocabulary of the statements *)

(** Bit [j] of byte [i] of a buffer, inverted. *)
Fixpoint flip_bit (i : nat) (j : Z) (b : bytes) : bytes :=
  match b, i with
  | [], _ => []
  | x :: t, O => Z.lxor x (2 ^ j) :: t
  | x :: t, S i' => x :: flip_bit i' j t
  end.

(** One bit changed in the ciphertext, in the tag or in the associated data. *)
Inductive single_bit_flip (ct tag ad : bytes) : bytes -> bytes -> bytes -> Prop :=
| flip_in_ciphertext (i : nat) (j : Z) :
    (i < List.length ct)%nat -> 0 <= j < 8 ->
    single_bit_flip ct tag ad (flip_bit i j ct) tag ad
| flip_in_tag (i : nat) (j : Z) :
    (i < List.length tag)%nat -> 0 <= j < 8 ->
    single_bit_flip ct tag ad ct (flip_bit i j tag) ad
| flip_in_associated_data (i : nat) (j : Z) :
    (i < List.length ad)%nat -> 0 <= j < 8 ->
    single_bit_flip ct tag ad ct tag (flip_bit i j ad).

Definition all_zero (b : bytes) : Prop := Forall (fun x => x = 0) b.

(** Which native contexts are under construction or keyed: [(gcm, chachapoly)]. *)
Definition backend_step (s : bool * bool) (k : native_call) : bool * bool :=
  match k with
  | call_gcm_init | call_gcm_setkey _ _ => (true, snd s)
  | call_gcm_free => (false, snd s)
  | call_chachapoly_init | call_chachapoly_setkey => (fst s, true)
  | call_chachapoly_free => (fst s, false)
  | _ => s
  end.

Definition backends_left (l : list native_call) (s : bool * bool) : bool * bool :=
  fold_left backend_step l s.

Definition native_setup_call (k : native_call) : bool :=
  match k with
  | call_gcm_init | call_gcm_setkey _ _ | call_chachapoly_init | call_chachapoly_setkey => true
  | _ => false
  end.

Section Behaviour.

Context {N : Mbedtls} {names : CryptoAlgs.Names}.

(** The contract of the library's authenticated decryption, as the header
    relies on it: a tag that verifies stops verifying when one bit of the
    ciphertext, of the 16-byte tag or of the associated data is inverted,
    and a call that fails leaves no byte other than zero in [output]. *)
Record mbedtls_authenticates : Prop := {
  gcm_detects_bit_flips :
    forall g iv ad ct tag ct' tag' ad',
      List.length tag = 16%nat ->
      fst (mbedtls_gcm_auth_decrypt g (len ct) iv IV_LEN ad (len ad)
                                    (Some tag) AUTH_TAG_LEN ct) = 0 ->
      single_bit_flip ct tag ad ct' tag' ad' ->
      fst (mbedtls_gcm_auth_decrypt g (len ct') iv IV_LEN ad' (len ad')
                                    (Some tag') AUTH_TAG_LEN ct') <> 0;
  gcm_failure_zeroes_output :
    forall g length iv iv_len ad ad_len tag tag_len input,
      fst (mbedtls_gcm_auth_decrypt g length iv iv_len ad ad_len tag tag_len input) <> 0 ->
      all_zero (snd (mbedtls_gcm_auth_decrypt g length iv iv_len ad ad_len tag tag_len input));
  chachapoly_detects_bit_flips :
    forall p iv ad ct tag ct' tag' ad',
      List.length tag = 16%nat ->
      fst (mbedtls_chachapoly_auth_decrypt p (len ct) iv ad (len ad) (Some tag) ct) = 0 ->
      single_bit_flip ct tag ad ct' tag' ad' ->
      fst (mbedtls_chachapoly_auth_decrypt p (len ct') iv ad' (len ad') (Some tag') ct') <> 0;
  chachapoly_failure_zeroes_output :
    forall p length iv ad ad_len tag input,
      fst (mbedtls_chachapoly_auth_decrypt p length iv ad ad_len tag input) <> 0 ->
      all_zero (snd (mbedtls_chachapoly_auth_decrypt p length iv ad ad_len tag input))
}.

(** The contract of the library's key setup and of its encryption: a key of
    the cipher's size is accepted, and under it a 12-byte nonce encrypts any
    plaintext to a ciphertext and tag that decrypt to the plaintext. *)
Record mbedtls_correct : Prop := {
  gcm_accepts_key :
    forall key keybits,
      In keybits [128; 192; 256] -> len key = keybits / 8 ->
      0 <= snd (mbedtls_gcm_setkey mbedtls_gcm_init MBEDTLS_CIPHER_ID_AES key keybits);
  gcm_round_trip :
    forall key keybits iv ad plaintext,
      In keybits [128; 192; 256] -> len key = keybits / 8 -> len iv = IV_LEN ->
      let g := fst (mbedtls_gcm_setkey mbedtls_gcm_init MBEDTLS_CIPHER_ID_AES key keybits) in
      exists ct tag,
        mbedtls_gcm_crypt_and_tag g MBEDTLS_GCM_ENCRYPT (len plaintext) iv IV_LEN
                                  ad (len ad) plaintext AUTH_TAG_LEN = (0, ct, tag)
        /\ mbedtls_gcm_auth_decrypt g (len plaintext) iv IV_LEN ad (len ad)
                                    (Some tag) AUTH_TAG_LEN ct = (0, plaintext);
  chachapoly_accepts_key :
    forall key,
      len key = 32 ->
      0 <= snd (mbedtls_chachapoly_setkey mbedtls_chachapoly_init key);
  chachapoly_round_trip :
    forall key iv ad plaintext,
      len key = 32 -> len iv = IV_LEN ->
      let p := fst (mbedtls_chachapoly_setkey mbedtls_chachapoly_init key) in
      exists ct tag,
        mbedtls_chachapoly_encrypt_and_tag p (len plaintext) iv ad (len ad) plaintext
          = (0, ct, tag)
        /\ mbedtls_chachapoly_auth_decrypt p (len plaintext) iv ad (len ad) (Some tag) ct
          = (0, plaintext)
}.

(** The status the key setup of [init] gets from the library for [alg] and
    [key]; [None] when [init] does not get that far for any key size. *)
Definition setkey_status (alg : CryptoAlgs.Type') (key : bytes) : option Z :=
  match cipher_type alg, alg with
  | Ok (cid, ckeysz), (CryptoAlgs.AES_128_GCM | CryptoAlgs.AES_192_GCM | CryptoAlgs.AES_256_GCM) =>
      Some (snd (mbedtls_gcm_setkey mbedtls_gcm_init cid key (ckeysz * 8)))
  | Ok _, CryptoAlgs.CHACHA20_POLY1305 =>
      Some (snd (mbedtls_chachapoly_setkey mbedtls_chachapoly_init key))
  | _, _ => None
  end.

(** The native contexts an object holds keyed. *)
Definition held (c : CipherContextAEAD) : bool * bool :=
  if initialized c then
    match crypto_alg c with
    | CryptoAlgs.AES_128_GCM | CryptoAlgs.AES_192_GCM | CryptoAlgs.AES_256_GCM => (true, false)
    | CryptoAlgs.CHACHA20_POLY1305 => (false, true)
    | CryptoAlgs.other _ => (false, false)
    end
  else (false, false).

(** An [init] whose native key setup fails propagates the error, leaves the
    object uninitialized, and leaves no native context under construction. *)
Definition init_failure_tears_down : Prop :=
  forall (c : CipherContextAEAD) libctx alg key keysize mode cid ckeysz status,
    cipher_type alg = Ok (cid, ckeysz) ->
    ckeysz <= keysize ->
    setkey_status alg key = Some status ->
    status < 0 ->
    (exists e, result (init libctx alg key keysize mode c) = Throw e)
    /\ initialized (object (init libctx alg key keysize mode c)) = false
    /\ backends_left (calls (init libctx alg key keysize mode c)) (held c) = (false, false).

(** An [init] with too short a key fails on the key-size check before it
    has made any call into mbed TLS. *)
Definition short_key_check_precedes_native_calls : Prop :=
  forall (c : CipherContextAEAD) libctx alg key keysize mode cid ckeysz,
    cipher_type alg = Ok (cid, ckeysz) ->
    keysize < ckeysz ->
    result (init libctx alg key keysize mode c)
    = Throw (mbedtls_aead_error "insufficient key material")
    /\ calls (init libctx alg key keysize mode c) = [].

(** A client's calls on one object, and what each of them shows. *)
Inductive request : Type :=
| do_init (libctx : Z) (alg : CryptoAlgs.Type') (key : bytes) (keysize : Z) (mode : Z)
| do_encrypt (input : bytes) (length : Z) (iv : bytes) (ad : bytes) (ad_len : Z)
| do_decrypt (input : bytes) (length : Z) (iv : bytes) (tag : option bytes)
             (ad : bytes) (ad_len : Z)
| do_is_initialized.

Inductive value : Type :=
| void
| boolean (b : bool)
| ciphertext_and_tag (output tag : bytes)
| verdict_and_output (b : bool) (output : bytes).

Definition perform (r : request) : method value :=
  match r with
  | do_init libctx alg key keysize mode =>
      init libctx alg key keysize mode ;; ret void
  | do_encrypt input length iv ad ad_len =>
      ot <- encrypt input length iv ad ad_len ;; ret (ciphertext_and_tag (fst ot) (snd ot))
  | do_decrypt input length iv tag ad ad_len =>
      bo <- decrypt input length iv tag ad ad_len ;; ret (verdict_and_output (fst bo) (snd bo))
  | do_is_initialized =>
      b <- is_initialized ;; ret (boolean b)
  end.

(** What a sequence of calls shows: per call, its result and its native calls. *)
Fixpoint run (rs : list request) (c : CipherContextAEAD)
  : list (outcome value * list native_call) :=
  match rs with
  | [] => []
  | r :: rs' => (result (perform r c), calls (perform r c)) :: run rs' (object (perform r c))
  end.

(** The object after a sequence of calls. *)
Fixpoint after (rs : list request) (c : CipherContextAEAD) : CipherContextAEAD :=
  match rs with
  | [] => c
  | r :: rs' => after rs' (object (perform r c))
  end.

Definition is_init (r : request) : bool :=
  match r with
  | do_init _ _ _ _ _ => true
  | _ => false
  end.

(** The objects on which no [init] has succeeded since they were constructed
    or torn down. *)
Inductive uninitialized : CipherContextAEAD -> Prop :=
| constructed g p a e d : uninitialized (constructor g p a e d)
| torn_down c : uninitialized (object (erase c))
| init_failed c libctx alg key keysize mode e :
    result (init libctx alg key keysize mode c) = Throw e ->
    uninitialized (object (init libctx alg key keysize mode c))
| used c r : uninitialized c -> is_init r = false -> uninitialized (object (perform r c)).

(** Two objects a client cannot tell apart: both uninitialized, or both
    initialized for the same algorithm with the same methods bound and the
    same native context behind each bound method. *)
Definition alike (c1 c2 : CipherContextAEAD) : Prop :=
  initialized c1 = initialized c2
  /\ (initialized c1 = true ->
      crypto_alg c1 = crypto_alg c2
      /\ aead_encrypt c1 = aead_encrypt c2
      /\ aead_decrypt c1 = aead_decrypt c2
      /\ ((aead_encrypt c1 = to_gcm_encrypt \/ aead_decrypt c1 = to_gcm_decrypt) ->
          gcm_ctx c1 = gcm_ctx c2)
      /\ ((aead_encrypt c1 = to_chachapoly_encrypt \/ aead_decrypt c1 = to_chachapoly_decrypt) ->
          chachapoly_ctx c1 = chachapoly_ctx c2)).

End Behaviour.

(** ** Vocabulary of the further statements *)

Section Coverage.

Context {N : Mbedtls} {names : CryptoAlgs.Names}.

(** The bound methods are those of the algorithm the object is initialised
    for. *)
Definition dispatch_matches (c : CipherContextAEAD) : Prop :=
  initialized c = true ->
  match crypto_alg c with
  | CryptoAlgs.AES_128_GCM | CryptoAlgs.AES_192_GCM | CryptoAlgs.AES_256_GCM =>
      aead_encrypt c = to_gcm_encrypt /\ aead_decrypt c = to_gcm_decrypt
  | CryptoAlgs.CHACHA20_POLY1305 =>
      aead_encrypt c = to_chachapoly_encrypt /\ aead_decrypt c = to_chachapoly_decrypt
  | CryptoAlgs.other _ => False
  end.

(** The native call an encryption, and a decryption, of [alg] comes to. *)
Definition encrypt_call (alg : CryptoAlgs.Type') (length ad_len : Z) : native_call :=
  match alg with
  | CryptoAlgs.CHACHA20_POLY1305 => call_chachapoly_encrypt_and_tag length ad_len
  | _ => call_gcm_crypt_and_tag MBEDTLS_GCM_ENCRYPT length IV_LEN ad_len AUTH_TAG_LEN
  end.

Definition decrypt_call (alg : CryptoAlgs.Type') (length ad_len : Z) : native_call :=
  match alg with
  | CryptoAlgs.CHACHA20_POLY1305 => call_chachapoly_auth_decrypt length ad_len
  | _ => call_gcm_auth_decrypt length IV_LEN ad_len AUTH_TAG_LEN
  end.



(** The contract of the cipher layer's one-shot pair: what
    [mbedtls_cipher_auth_encrypt_ext] wrote for a plaintext, ciphertext and
    tag in one buffer, [mbedtls_cipher_auth_decrypt_ext] turns back into the
    plaintext and its length. *)
Definition cipher_layer_correct : Prop :=
  forall k iv ad plaintext output olen,
    mbedtls_cipher_auth_encrypt_ext k iv IV_LEN ad (len ad) plaintext (len plaintext)
                                    (len plaintext + AUTH_TAG_LEN) AUTH_TAG_LEN
    = (0, output, olen) ->
    mbedtls_cipher_auth_decrypt_ext k iv IV_LEN ad (len ad) output
                                    (len plaintext + AUTH_TAG_LEN) (len plaintext) AUTH_TAG_LEN
    = (0, plaintext, len plaintext).

End Coverage.

(** ** Proof steps *)

(** Unfolds a method down to the state function it denotes. *)
Ltac open_method :=
  unfold perform, init, encrypt, decrypt, destructor, erase, is_initialized, check_initialized,
    gcm_encrypt, gcm_decrypt, chachapoly_encrypt, chachapoly_decrypt,
    gcm_init, gcm_setkey, gcm_free, chachapoly_init, chachapoly_setkey, chachapoly_free,
    static, native, assign, this, throw, bind, ret, result, object, calls in *.

Ltac open_tag_at_end :=
  unfold TagAtEnd.encrypt, TagAtEnd.decrypt, TagAtEnd.check_initialized,
    TagAtEnd.is_initialized,
    static, native, assign, this, throw, bind, ret, result, object, calls in *.

(** Case analysis along the branches of an opened method. *)
Ltac branch :=
  match goal with
  | |- context [match ?x with _ => _ end] =>
      match x with
      | context [match _ with _ => _ end] => fail 1
      | _ => destruct x eqn:?
      end
  end; cbn in *.

Ltac branches := open_method; cbn in *; repeat branch.

(** * Theorems *)

Section Lifecycle.

Context {N : Mbedtls} {names : CryptoAlgs.Names}.

Lemma cipher_type_supported (alg : CryptoAlgs.Type') (cid : mbedtls_cipher_id_t) (ckeysz : Z) :
  cipher_type alg = Ok (cid, ckeysz) ->
  mbedtls_cipher_id_eqb cid MBEDTLS_CIPHER_ID_NONE = false
  /\ (alg = CryptoAlgs.AES_128_GCM /\ cid = MBEDTLS_CIPHER_ID_AES /\ ckeysz = 16
      \/ alg = CryptoAlgs.AES_192_GCM /\ cid = MBEDTLS_CIPHER_ID_AES /\ ckeysz = 24
      \/ alg = CryptoAlgs.AES_256_GCM /\ cid = MBEDTLS_CIPHER_ID_AES /\ ckeysz = 32
      \/ alg = CryptoAlgs.CHACHA20_POLY1305 /\ cid = MBEDTLS_CIPHER_ID_CHACHA20 /\ ckeysz = 32).
Proof.
  destruct alg; simpl; intros H; inversion H; subst; split; auto; intuition congruence.
Qed.

Lemma erase_uninitialized (c : CipherContextAEAD) :
  initialized c = false -> erase c = (Ok tt, c, []).
Proof.
  intros H. open_method. rewrite H. reflexivity.
Qed.

Lemma erase_clears (c : CipherContextAEAD) :
  result (erase c) = Ok tt /\ initialized (object (erase c)) = false.
Proof.
  open_method. destruct (initialized c) eqn:E; [destruct (crypto_alg c)|]; simpl; auto.
Qed.

Lemma erase_calls (c : CipherContextAEAD) :
  forall k, In k (calls (erase c)) -> k = call_gcm_free \/ k = call_chachapoly_free.
Proof.
  intros k. open_method.
  destruct (initialized c); [destruct (crypto_alg c)|]; simpl; intuition congruence.
Qed.

End Lifecycle.

Section Initialisation.

Context {N : Mbedtls} {names : CryptoAlgs.Names}.

Lemma init_throw_uninitialized (c : CipherContextAEAD) libctx alg key keysize mode e :
  result (init libctx alg key keysize mode c) = Throw e ->
  initialized (object (init libctx alg key keysize mode c)) = false.
Proof.
  branches; intros; try discriminate; auto.
Qed.

Lemma uninitialized_flag (c : CipherContextAEAD) :
  uninitialized c -> initialized c = false.
Proof.
  induction 1 as [g p a e d | c | c libctx alg key keysize mode e H | c r _ IH Hr].
  - reflexivity.
  - apply erase_clears.
  - eapply init_throw_uninitialized; eassumption.
  - destruct r; try discriminate; branches; congruence.
Qed.

(** C4.  [is_supported] never answers [false].  For the four AEAD members it
    returns [true]; for every other member of the catalogue the [default]
    branch of [cipher_type] throws, and the exception leaves [is_supported]
    (both overloads) before its comparison with [MBEDTLS_CIPHER_ID_NONE] is
    made. *)
Theorem is_supported_throws_outside_the_aead_set :
  (forall alg, is_supported alg <> Ok false)
  /\ (forall n,
        is_supported (CryptoAlgs.other n)
        = Throw (mbedtls_aead_error (CryptoAlgs.name (CryptoAlgs.other n) ++ ": not usable")))
  /\ (forall libctx n,
        is_supported_libctx libctx (CryptoAlgs.other n)
        = Throw (mbedtls_aead_error (CryptoAlgs.name (CryptoAlgs.other n) ++ ": not usable")))
  /\ (forall alg cid ckeysz, cipher_type alg = Ok (cid, ckeysz) -> is_supported alg = Ok true).
Proof.
  repeat split.
  - intros alg. destruct alg; simpl; discriminate.
  - intros alg cid ckeysz H. destruct alg; simpl in *; inversion H; reflexivity.
Qed.

(** C5, as the code has it.  [init] for a supported algorithm with [keysize]
    below the size [cipher_type] reports throws "insufficient key material".
    The native calls of such an [init] are those of the [erase] it starts
    with (the free of a backend the object held; none on an uninitialized
    object): no native setup call is made, the object ends uninitialized and
    its native contexts are as [erase] left them. *)
Theorem init_insufficient_key_material
    (c : CipherContextAEAD) libctx alg key keysize mode cid ckeysz :
  cipher_type alg = Ok (cid, ckeysz) ->
  keysize < ckeysz ->
  init libctx alg key keysize mode c
  = (Throw (mbedtls_aead_error "insufficient key material"),
     set_crypto_alg alg (object (erase c)),
     calls (erase c))
  /\ (forall k, In k (calls (init libctx alg key keysize mode c)) ->
                native_setup_call k = false)
  /\ (initialized c = false -> calls (init libctx alg key keysize mode c) = [])
  /\ initialized (object (init libctx alg key keysize mode c)) = false.
Proof.
  intros Hsup Hlt.
  assert (Hgt : (ckeysz >? keysize) = true) by (apply Z.gtb_lt; lia).
  assert (E : init libctx alg key keysize mode c
              = (Throw (mbedtls_aead_error "insufficient key material"),
                 set_crypto_alg alg (object (erase c)), calls (erase c))).
  { pose proof Hsup as Hne. apply cipher_type_supported in Hne as [Hne _].
    unfold init, bind at 1.
    destruct (erase c) as [[r c1] l1] eqn:Ee.
    pose proof (erase_clears c) as [Hr _]. rewrite Ee in Hr. cbn in Hr. subst r.
    unfold bind, assign, static. cbn. rewrite Hsup, Hne, Hgt.
    unfold throw. cbn. rewrite app_nil_r. reflexivity. }
  assert (Hc : calls (init libctx alg key keysize mode c) = calls (erase c))
    by (rewrite E; reflexivity).
  assert (Ho : object (init libctx alg key keysize mode c)
               = set_crypto_alg alg (object (erase c)))
    by (rewrite E; reflexivity).
  split; [exact E|]. rewrite Hc, Ho. repeat split.
  - intros k Hk. apply erase_calls in Hk. destruct Hk; subst; reflexivity.
  - intros Hf. rewrite erase_uninitialized by assumption. reflexivity.
  - apply erase_clears.
Qed.

(** C6.  On an object on which no [init] has succeeded (just constructed,
    torn down, left by an [init] that threw, or used since in any way other
    than [init]) [encrypt] and [decrypt] throw "uninitialized", make no call
    into mbed TLS and leave the object as it was. *)
Theorem uninitialized_encrypt_decrypt_throw (c : CipherContextAEAD) :
  uninitialized c ->
  (forall input length iv ad ad_len,
      encrypt input length iv ad ad_len c
      = (Throw (mbedtls_aead_error "uninitialized"), c, []))
  /\ (forall input length iv tag ad ad_len,
        decrypt input length iv tag ad ad_len c
        = (Throw (mbedtls_aead_error "uninitialized"), c, [])).
Proof.
  intros H. apply uninitialized_flag in H.
  split; intros; open_method; rewrite H; reflexivity.
Qed.

End Initialisation.

Section Reinitialisation.

Context {N : Mbedtls} {names : CryptoAlgs.Names}.

Lemma erase_releases (c : CipherContextAEAD) :
  backends_left (calls (erase c)) (held c) = (false, false).
Proof.
  unfold held. open_method.
  destruct (initialized c); [destruct (crypto_alg c)|]; reflexivity.
Qed.

Lemma alike_refl (c : CipherContextAEAD) : alike c c.
Proof. unfold alike. intuition. Qed.

Lemma alike_sym (c1 c2 : CipherContextAEAD) : alike c1 c2 -> alike c2 c1.
Proof.
  intros [Hi H]. split; [congruence|].
  intros Hb. rewrite <- Hi in Hb. destruct (H Hb) as (A & E & D & G & P).
  repeat split; try congruence; intros Hu; symmetry; [apply G | apply P];
    rewrite E, D; exact Hu.
Qed.

Lemma alike_trans (c1 c2 c3 : CipherContextAEAD) :
  alike c1 c2 -> alike c2 c3 -> alike c1 c3.
Proof.
  intros [Hi H] [Hi' H']. split; [congruence|].
  intros Hb. destruct (H Hb) as (A & E & D & G & P).
  rewrite Hi in Hb. destruct (H' Hb) as (A' & E' & D' & G' & P').
  repeat split; try congruence; intros Hu;
    [rewrite G by exact Hu; apply G' | rewrite P by exact Hu; apply P'];
    rewrite <- E, <- D; exact Hu.
Qed.

Lemma alike_erase (c1 c2 : CipherContextAEAD) :
  alike c1 c2 -> calls (erase c1) = calls (erase c2).
Proof.
  intros [Hi Ha]. open_method. rewrite <- Hi.
  destruct (initialized c1); [|reflexivity].
  destruct (Ha eq_refl) as [Halg _]. rewrite <- Halg.
  destruct (crypto_alg c1); reflexivity.
Qed.

(** [init] on an object is [init] on what [erase] makes of it, after the
    native calls of that [erase]. *)
Lemma init_erased (c : CipherContextAEAD) libctx alg key keysize mode :
  result (init libctx alg key keysize mode c)
  = result (init libctx alg key keysize mode (object (erase c)))
  /\ object (init libctx alg key keysize mode c)
     = object (init libctx alg key keysize mode (object (erase c)))
  /\ calls (init libctx alg key keysize mode c)
     = calls (erase c) ++ calls (init libctx alg key keysize mode (object (erase c))).
Proof.
  destruct c as [i g p a e d]. branches; auto.
Qed.

Lemma init_uninitialized (c1 c2 : CipherContextAEAD) libctx alg key keysize mode :
  initialized c1 = false ->
  initialized c2 = false ->
  result (init libctx alg key keysize mode c1) = result (init libctx alg key keysize mode c2)
  /\ calls (init libctx alg key keysize mode c1) = calls (init libctx alg key keysize mode c2)
  /\ alike (object (init libctx alg key keysize mode c1))
           (object (init libctx alg key keysize mode c2)).
Proof.
  destruct c1 as [i1 g1 p1 a1 e1 d1], c2 as [i2 g2 p2 a2 e2 d2].
  cbn. intros -> ->. unfold alike.
  branches; repeat split; intros; try discriminate; try congruence;
    repeat match goal with H : _ \/ _ |- _ => destruct H end; discriminate.
Qed.

(** [init] does not read the object beyond what [erase] reads. *)
Lemma init_forgets (c1 c2 : CipherContextAEAD) libctx alg key keysize mode :
  initialized c2 = false ->
  result (init libctx alg key keysize mode c1) = result (init libctx alg key keysize mode c2)
  /\ calls (init libctx alg key keysize mode c1)
     = calls (erase c1) ++ calls (init libctx alg key keysize mode c2)
  /\ alike (object (init libctx alg key keysize mode c1))
           (object (init libctx alg key keysize mode c2)).
Proof.
  intros H2.
  destruct (init_erased c1 libctx alg key keysize mode) as (-> & -> & ->).
  destruct (erase_clears c1) as [_ H1].
  destruct (init_uninitialized (object (erase c1)) c2 libctx alg key keysize mode H1 H2)
    as (-> & -> & A).
  auto.
Qed.

Lemma init_same_key_uninitialized (c1 c2 : CipherContextAEAD)
    libctx1 libctx2 alg key keysize1 keysize2 mode1 mode2 :
  initialized c1 = false ->
  initialized c2 = false ->
  result (init libctx1 alg key keysize1 mode1 c1) = Ok tt ->
  result (init libctx2 alg key keysize2 mode2 c2) = Ok tt ->
  alike (object (init libctx1 alg key keysize1 mode1 c1))
        (object (init libctx2 alg key keysize2 mode2 c2)).
Proof.
  destruct c1 as [i1 g1 p1 a1 e1 d1], c2 as [i2 g2 p2 a2 e2 d2].
  cbn. intros -> ->. unfold alike.
  branches; intros; try discriminate; repeat split; intros; try congruence;
    repeat match goal with H : _ \/ _ |- _ => destruct H end; discriminate.
Qed.

(** With the same algorithm and key, two successful [init]s end alike,
    whatever the objects were and whatever key size and mode were passed. *)
Lemma init_same_key (c1 c2 : CipherContextAEAD)
    libctx1 libctx2 alg key keysize1 keysize2 mode1 mode2 :
  result (init libctx1 alg key keysize1 mode1 c1) = Ok tt ->
  result (init libctx2 alg key keysize2 mode2 c2) = Ok tt ->
  alike (object (init libctx1 alg key keysize1 mode1 c1))
        (object (init libctx2 alg key keysize2 mode2 c2)).
Proof.
  destruct (init_erased c1 libctx1 alg key keysize1 mode1) as (-> & -> & _).
  destruct (init_erased c2 libctx2 alg key keysize2 mode2) as (-> & -> & _).
  apply init_same_key_uninitialized; apply erase_clears.
Qed.

Lemma alike_encrypt (c1 c2 : CipherContextAEAD) input length iv ad ad_len :
  alike c1 c2 ->
  result (encrypt input length iv ad ad_len c1) = result (encrypt input length iv ad ad_len c2)
  /\ calls (encrypt input length iv ad ad_len c1) = calls (encrypt input length iv ad ad_len c2).
Proof.
  intros [Hi Ha]. destruct c1 as [i1 g1 p1 a1 e1 d1], c2 as [i2 g2 p2 a2 e2 d2].
  cbn in *. subst i2. destruct i1; [|split; reflexivity].
  destruct (Ha eq_refl) as (-> & -> & -> & Hg & Hp).
  destruct e2; [rewrite Hg by auto | rewrite Hp by auto]; branches; split; reflexivity.
Qed.

Lemma alike_decrypt (c1 c2 : CipherContextAEAD) input length iv tag ad ad_len :
  alike c1 c2 ->
  result (decrypt input length iv tag ad ad_len c1)
  = result (decrypt input length iv tag ad ad_len c2)
  /\ calls (decrypt input length iv tag ad ad_len c1)
     = calls (decrypt input length iv tag ad ad_len c2).
Proof.
  intros [Hi Ha]. destruct c1 as [i1 g1 p1 a1 e1 d1], c2 as [i2 g2 p2 a2 e2 d2].
  cbn in *. subst i2. destruct i1; [|split; reflexivity].
  destruct (Ha eq_refl) as (-> & -> & -> & Hg & Hp).
  destruct d2; [rewrite Hg by auto | rewrite Hp by auto]; branches; split; reflexivity.
Qed.

(** Apart from [init], no call changes the object. *)
Lemma perform_keeps_object (c : CipherContextAEAD) (r : request) :
  is_init r = false -> object (perform r c) = c.
Proof.
  destruct r; try discriminate; intros _; branches; reflexivity.
Qed.

Lemma after_keeps_object (rs : list request) (c : CipherContextAEAD) :
  Forall (fun r => is_init r = false) rs -> after rs c = c.
Proof.
  induction 1 as [|r rs Hr _ IH]; simpl; [reflexivity|].
  rewrite perform_keeps_object by assumption. exact IH.
Qed.

Lemma perform_unfold_encrypt (c : CipherContextAEAD) input length iv ad ad_len :
  result (perform (do_encrypt input length iv ad ad_len) c)
  = match result (encrypt input length iv ad ad_len c) with
    | Ok ot => Ok (ciphertext_and_tag (fst ot) (snd ot))
    | Throw e => Throw e
    end
  /\ calls (perform (do_encrypt input length iv ad ad_len) c)
     = calls (encrypt input length iv ad ad_len c).
Proof.
  unfold perform, bind, ret, result, calls.
  destruct (encrypt input length iv ad ad_len c) as [[[ot|e] c'] l]; cbn;
    rewrite ?app_nil_r; auto.
Qed.

Lemma perform_unfold_decrypt (c : CipherContextAEAD) input length iv tag ad ad_len :
  result (perform (do_decrypt input length iv tag ad ad_len) c)
  = match result (decrypt input length iv tag ad ad_len c) with
    | Ok bo => Ok (verdict_and_output (fst bo) (snd bo))
    | Throw e => Throw e
    end
  /\ calls (perform (do_decrypt input length iv tag ad ad_len) c)
     = calls (decrypt input length iv tag ad ad_len c).
Proof.
  unfold perform, bind, ret, result, calls.
  destruct (decrypt input length iv tag ad ad_len c) as [[[bo|e] c'] l]; cbn;
    rewrite ?app_nil_r; auto.
Qed.

Lemma perform_unfold_init (c : CipherContextAEAD) libctx alg key keysize mode :
  result (perform (do_init libctx alg key keysize mode) c)
  = match result (init libctx alg key keysize mode c) with
    | Ok _ => Ok void
    | Throw e => Throw e
    end
  /\ calls (perform (do_init libctx alg key keysize mode) c)
     = calls (init libctx alg key keysize mode c)
  /\ object (perform (do_init libctx alg key keysize mode) c)
     = object (init libctx alg key keysize mode c).
Proof.
  unfold perform, bind, ret, result, calls, object.
  destruct (init libctx alg key keysize mode c) as [[[u|e] c'] l]; cbn;
    rewrite ?app_nil_r; auto.
Qed.

(** Objects that are alike answer every call alike, and stay alike. *)
Lemma alike_perform (c1 c2 : CipherContextAEAD) (r : request) :
  alike c1 c2 ->
  result (perform r c1) = result (perform r c2)
  /\ calls (perform r c1) = calls (perform r c2)
  /\ alike (object (perform r c1)) (object (perform r c2)).
Proof.
  intros H. destruct r as [libctx alg key keysize mode | | |].
  - destruct (perform_unfold_init c1 libctx alg key keysize mode) as (-> & -> & ->).
    destruct (perform_unfold_init c2 libctx alg key keysize mode) as (-> & -> & ->).
    set (f := constructor (gcm_ctx c1) (chachapoly_ctx c1) (crypto_alg c1)
                          (aead_encrypt c1) (aead_decrypt c1)).
    destruct (init_forgets c1 f libctx alg key keysize mode eq_refl) as (R1 & C1 & A1).
    destruct (init_forgets c2 f libctx alg key keysize mode eq_refl) as (R2 & C2 & A2).
    rewrite R1, R2, C1, C2, (alike_erase c1 c2 H). split; [reflexivity|split; [reflexivity|]].
    eapply alike_trans; [exact A1 | apply alike_sym; exact A2].
  - destruct (perform_unfold_encrypt c1 input length iv ad ad_len) as (-> & ->).
    destruct (perform_unfold_encrypt c2 input length iv ad ad_len) as (-> & ->).
    destruct (alike_encrypt c1 c2 input length iv ad ad_len H) as (-> & ->).
    rewrite !perform_keeps_object by reflexivity. auto.
  - destruct (perform_unfold_decrypt c1 input length iv tag ad ad_len) as (-> & ->).
    destruct (perform_unfold_decrypt c2 input length iv tag ad ad_len) as (-> & ->).
    destruct (alike_decrypt c1 c2 input length iv tag ad ad_len H) as (-> & ->).
    rewrite !perform_keeps_object by reflexivity. auto.
  - rewrite !perform_keeps_object by reflexivity.
    split; [|split; [reflexivity | exact H]].
    destruct H as [Hi _]. open_method. cbn. rewrite Hi. reflexivity.
Qed.

Lemma alike_run (rs : list request) (c1 c2 : CipherContextAEAD) :
  alike c1 c2 -> run rs c1 = run rs c2.
Proof.
  revert c1 c2. induction rs as [|r rs IH]; intros c1 c2 H; simpl; [reflexivity|].
  destruct (alike_perform c1 c2 r H) as (-> & -> & A). f_equal. apply IH, A.
Qed.

(** C3, as the code has it.  When the native key setup of [init] fails, the
    exception that names the failed call is thrown: "mbedtls_gcm_setkey" when
    the algorithm's cipher is AES, after exactly [mbedtls_gcm_init] and
    [mbedtls_gcm_setkey], and "mbedtls_chachapoly_setkey" when it is
    ChaCha20, after exactly [mbedtls_chachapoly_init] and
    [mbedtls_chachapoly_setkey].  The object is left uninitialized; the
    backend it held before was freed by the [erase] that [init] starts
    with, ahead of every other native call. *)
Theorem init_setkey_failure_leaves_uninitialized
    (c : CipherContextAEAD) libctx alg key keysize mode cid ckeysz status :
  cipher_type alg = Ok (cid, ckeysz) ->
  ckeysz <= keysize ->
  setkey_status alg key = Some status ->
  status < 0 ->
  (cid = MBEDTLS_CIPHER_ID_AES
   /\ result (init libctx alg key keysize mode c)
      = Throw (mbedtls_aead_error "mbedtls_gcm_setkey")
   /\ calls (init libctx alg key keysize mode c)
      = calls (erase c) ++ [call_gcm_init; call_gcm_setkey MBEDTLS_CIPHER_ID_AES (ckeysz * 8)]
   \/ cid = MBEDTLS_CIPHER_ID_CHACHA20
      /\ result (init libctx alg key keysize mode c)
         = Throw (mbedtls_aead_error "mbedtls_chachapoly_setkey")
      /\ calls (init libctx alg key keysize mode c)
         = calls (erase c) ++ [call_chachapoly_init; call_chachapoly_setkey])
  /\ initialized (object (init libctx alg key keysize mode c)) = false
  /\ (exists l, calls (init libctx alg key keysize mode c) = calls (erase c) ++ l)
  /\ backends_left (calls (erase c)) (held c) = (false, false).
Proof.
  intros Hsup Hle Hst Hneg.
  assert (Hgt : (ckeysz >? keysize) = false) by (rewrite Z.gtb_ltb; apply Z.ltb_ge; lia).
  assert (Hlt : (status <? 0) = true) by (apply Z.ltb_lt; lia).
  assert (R : cid = MBEDTLS_CIPHER_ID_AES
              /\ result (init libctx alg key keysize mode c)
                 = Throw (mbedtls_aead_error "mbedtls_gcm_setkey")
              /\ calls (init libctx alg key keysize mode c)
                 = calls (erase c)
                   ++ [call_gcm_init; call_gcm_setkey MBEDTLS_CIPHER_ID_AES (ckeysz * 8)]
              \/ cid = MBEDTLS_CIPHER_ID_CHACHA20
                 /\ result (init libctx alg key keysize mode c)
                    = Throw (mbedtls_aead_error "mbedtls_chachapoly_setkey")
                 /\ calls (init libctx alg key keysize mode c)
                    = calls (erase c) ++ [call_chachapoly_init; call_chachapoly_setkey]).
  { destruct (init_erased c libctx alg key keysize mode) as (-> & _ & ->).
    destruct (erase_clears c) as [_ Hu]. revert Hu.
    generalize (calls (erase c)) (object (erase c)).
    intros l [i g p a e d]. cbn. intros ->.
    unfold setkey_status in Hst. rewrite Hsup in Hst.
    destruct alg; cbn in Hsup; inversion Hsup; subst cid ckeysz; inversion Hst as [Hs];
      open_method; cbn; rewrite Hgt; cbn.
    1-3: destruct (mbedtls_gcm_setkey mbedtls_gcm_init _ key _) as [g' st];
      cbn in Hs; subst st; cbn; rewrite Hlt; cbn; left; auto.
    destruct (mbedtls_chachapoly_setkey mbedtls_chachapoly_init key) as [g' st];
      cbn in Hs; subst st; cbn; rewrite Hlt; cbn; right; auto. }
  split; [exact R|]. split; [|split].
  - destruct R as [(_ & R & _) | (_ & R & _)];
      exact (init_throw_uninitialized _ _ _ _ _ _ _ R).
  - destruct R as [(_ & _ & C) | (_ & _ & C)]; eexists; exact C.
  - apply erase_releases.
Qed.

(** C8.  Teardown in every state.  [erase] on an uninitialized object does
    nothing; in any state it returns, ends uninitialized and leaves no
    native context keyed; the destructor is [erase]; and [init] on any
    object gives the result it gives on a just constructed one, with the
    native calls of the [erase] of the old backend ahead of the same setup
    calls, and leaves an object that answers every later sequence of calls
    as the one initialised from scratch does. *)
Theorem teardown_safe_and_reinit_as_fresh :
  (forall c : CipherContextAEAD, initialized c = false -> erase c = (Ok tt, c, []))
  /\ (forall c : CipherContextAEAD,
        result (erase c) = Ok tt
        /\ initialized (object (erase c)) = false
        /\ backends_left (calls (erase c)) (held c) = (false, false)
        /\ erase (object (erase c)) = (Ok tt, object (erase c), []))
  /\ (forall c : CipherContextAEAD, destructor c = erase c)
  /\ (forall (c : CipherContextAEAD) libctx alg key keysize mode g p a e d rs,
        result (init libctx alg key keysize mode c)
        = result (init libctx alg key keysize mode (constructor g p a e d))
        /\ calls (init libctx alg key keysize mode c)
           = calls (erase c) ++ calls (init libctx alg key keysize mode (constructor g p a e d))
        /\ run rs (object (init libctx alg key keysize mode c))
           = run rs (object (init libctx alg key keysize mode (constructor g p a e d)))).
Proof.
  split; [|split; [|split]].
  - intros c H. apply erase_uninitialized, H.
  - intros c. destruct (erase_clears c) as [R I].
    repeat split; auto using erase_releases, erase_uninitialized.
  - reflexivity.
  - intros c libctx alg key keysize mode g p a e d rs.
    destruct (init_forgets c (constructor g p a e d) libctx alg key keysize mode eq_refl)
      as (R & C & A).
    auto using alike_run.
Qed.

(** C10.  [encrypt] is a function of algorithm, key and arguments.  Two
    objects, whatever they were before, each initialised with success for
    the same algorithm and key bytes and then used for any encryptions and
    decryptions, answer an [encrypt] with the same arguments with the same
    result (the same ciphertext and tag, or the same exception) and make the
    same native calls.  Nothing else enters an encryption: the method has no
    source of randomness. *)
Theorem encrypt_deterministic (c1 c2 : CipherContextAEAD)
    libctx1 libctx2 alg key keysize1 keysize2 mode1 mode2 (h1 h2 : list request)
    input length iv ad ad_len :
  result (init libctx1 alg key keysize1 mode1 c1) = Ok tt ->
  result (init libctx2 alg key keysize2 mode2 c2) = Ok tt ->
  Forall (fun r => is_init r = false) h1 ->
  Forall (fun r => is_init r = false) h2 ->
  result (encrypt input length iv ad ad_len
            (after h1 (object (init libctx1 alg key keysize1 mode1 c1))))
  = result (encrypt input length iv ad ad_len
              (after h2 (object (init libctx2 alg key keysize2 mode2 c2))))
  /\ calls (encrypt input length iv ad ad_len
              (after h1 (object (init libctx1 alg key keysize1 mode1 c1))))
     = calls (encrypt input length iv ad ad_len
                (after h2 (object (init libctx2 alg key keysize2 mode2 c2)))).
Proof.
  intros R1 R2 H1 H2.
  rewrite !after_keeps_object by assumption.
  apply alike_encrypt, init_same_key; assumption.
Qed.

End Reinitialisation.

Section TagAtEndDecrypt.

Context {N : Mbedtls}.

(** C7.  With the tag at the end of [input], a [tag] pointer that is not
    null makes [decrypt] of an initialized object throw "tag must be null
    for aead decrypt": no call into mbed TLS is made with either tag, and
    the object is left as it was. *)
Theorem decrypt_with_separate_tag_throws
    (c : TagAtEnd.CipherContextAEAD) input length iv (tag : bytes) ad ad_len :
  TagAtEnd.initialized c = true ->
  TagAtEnd.decrypt input length iv (Some tag) ad ad_len c
  = (Throw (mbedtls_aead_error "tag must be null for aead decrypt"), c, []).
Proof.
  intros H. open_tag_at_end. rewrite H. reflexivity.
Qed.

(** C9.  With the tag at the end of [input] and [length] below 16, nothing
    stops [decrypt]: it does not throw, and its one native call is
    [mbedtls_cipher_auth_decrypt_ext] with an output size of
    [length - 16] wrapped, that is [2^64 - 16 + length]. *)
Theorem decrypt_short_length_wraps
    (c : TagAtEnd.CipherContextAEAD) input length iv ad ad_len :
  TagAtEnd.initialized c = true ->
  0 <= length < AUTH_TAG_LEN ->
  size_t_sub length AUTH_TAG_LEN = 2 ^ 64 - 16 + length
  /\ calls (TagAtEnd.decrypt input length iv None ad ad_len c)
     = [call_cipher_auth_decrypt_ext IV_LEN ad_len length (2 ^ 64 - 16 + length) AUTH_TAG_LEN]
  /\ TagAtEnd.decrypt input length iv None ad ad_len c
     = (let '(status, output, olen) :=
          mbedtls_cipher_auth_decrypt_ext (TagAtEnd.ctx c) iv IV_LEN ad ad_len input length
                                          (2 ^ 64 - 16 + length) AUTH_TAG_LEN in
        (Ok ((olen =? 2 ^ 64 - 16 + length) && (status =? 0), output), c,
         [call_cipher_auth_decrypt_ext IV_LEN ad_len length (2 ^ 64 - 16 + length)
                                       AUTH_TAG_LEN])).
Proof.
  intros H Hl.
  assert (W : size_t_sub length AUTH_TAG_LEN = 2 ^ 64 - 16 + length).
  { unfold size_t_sub, size_t_max_plus_1, AUTH_TAG_LEN in *.
    symmetry. apply Z.mod_unique with (q := -1); lia. }
  split; [exact W|].
  open_tag_at_end. rewrite H. cbn [negb fst snd app]. rewrite W.
  destruct (mbedtls_cipher_auth_decrypt_ext (TagAtEnd.ctx c) iv IV_LEN ad ad_len input length
              (2 ^ 64 - 16 + length) AUTH_TAG_LEN) as [[status output] olen].
  split; reflexivity.
Qed.

End TagAtEndDecrypt.

Section Cryptography.

Context {N : Mbedtls} {names : CryptoAlgs.Names}.

Lemma flip_bit_length (i : nat) (j : Z) (b : bytes) :
  List.length (flip_bit i j b) = List.length b.
Proof.
  revert i. induction b as [|x t IH]; intros [|i]; simpl; auto.
Qed.

Lemma single_bit_flip_len ct tag ad ct' tag' ad' :
  single_bit_flip ct tag ad ct' tag' ad' ->
  len ct' = len ct /\ len ad' = len ad /\ List.length tag' = List.length tag.
Proof.
  unfold len. destruct 1; rewrite ?flip_bit_length; auto.
Qed.

(** What [decrypt] of an initialized object comes to, per bound method. *)
Lemma decrypt_initialized (c : CipherContextAEAD) input length iv tag ad ad_len :
  initialized c = true ->
  result (decrypt input length iv tag ad ad_len c)
  = match aead_decrypt c with
    | to_gcm_decrypt =>
        let r := mbedtls_gcm_auth_decrypt (gcm_ctx c) length iv IV_LEN ad ad_len
                                          tag AUTH_TAG_LEN input in
        Ok (fst r =? 0, snd r)
    | to_chachapoly_decrypt =>
        let r := mbedtls_chachapoly_auth_decrypt (chachapoly_ctx c) length iv ad ad_len
                                                 tag input in
        Ok (fst r =? 0, snd r)
    end.
Proof.
  intros H. open_method. rewrite H. cbn.
  destruct (aead_decrypt c); cbn.
  - destruct (mbedtls_gcm_auth_decrypt (gcm_ctx c) length iv IV_LEN ad ad_len
                                       tag AUTH_TAG_LEN input); reflexivity.
  - destruct (mbedtls_chachapoly_auth_decrypt (chachapoly_ctx c) length iv ad ad_len
                                              tag input); reflexivity.
Qed.

Lemma encrypt_initialized (c : CipherContextAEAD) input length iv ad ad_len :
  initialized c = true ->
  object (encrypt input length iv ad ad_len c) = c
  /\ result (encrypt input length iv ad ad_len c)
     = match aead_encrypt c with
       | to_gcm_encrypt =>
           let r := mbedtls_gcm_crypt_and_tag (gcm_ctx c) MBEDTLS_GCM_ENCRYPT length iv IV_LEN
                                              ad ad_len input AUTH_TAG_LEN in
           if fst (fst r) =? 0 then Ok (snd (fst r), snd r)
           else Throw (mbedtls_aead_error
                         ("mbedtls_gcm_crypt_and_tag failed with status="
                          ++ show_int (fst (fst r))))
       | to_chachapoly_encrypt =>
           let r := mbedtls_chachapoly_encrypt_and_tag (chachapoly_ctx c) length iv
                                                       ad ad_len input in
           if fst (fst r) =? 0 then Ok (snd (fst r), snd r)
           else Throw (mbedtls_aead_error
                         ("mbedtls_chachapoly_encrypt_and_tag failed with status="
                          ++ show_int (fst (fst r))))
       end.
Proof.
  intros H. open_method. rewrite H. cbn.
  destruct (aead_encrypt c); cbn.
  - destruct (mbedtls_gcm_crypt_and_tag (gcm_ctx c) MBEDTLS_GCM_ENCRYPT length iv IV_LEN
                                        ad ad_len input AUTH_TAG_LEN) as [[st o] t]; cbn.
    destruct (st =? 0); auto.
  - destruct (mbedtls_chachapoly_encrypt_and_tag (chachapoly_ctx c) length iv
                                                 ad ad_len input) as [[st o] t]; cbn.
    destruct (st =? 0); auto.
Qed.

(** What a successful [init] leaves. *)
Lemma init_succeeds (c : CipherContextAEAD) libctx alg key keysize mode cid ckeysz status :
  cipher_type alg = Ok (cid, ckeysz) ->
  ckeysz <= keysize ->
  setkey_status alg key = Some status ->
  0 <= status ->
  result (init libctx alg key keysize mode c) = Ok tt
  /\ initialized (object (init libctx alg key keysize mode c)) = true
  /\ (cid = MBEDTLS_CIPHER_ID_AES
      /\ aead_encrypt (object (init libctx alg key keysize mode c)) = to_gcm_encrypt
      /\ aead_decrypt (object (init libctx alg key keysize mode c)) = to_gcm_decrypt
      /\ gcm_ctx (object (init libctx alg key keysize mode c))
         = fst (mbedtls_gcm_setkey mbedtls_gcm_init cid key (ckeysz * 8))
      \/ cid = MBEDTLS_CIPHER_ID_CHACHA20
         /\ aead_encrypt (object (init libctx alg key keysize mode c)) = to_chachapoly_encrypt
         /\ aead_decrypt (object (init libctx alg key keysize mode c)) = to_chachapoly_decrypt
         /\ chachapoly_ctx (object (init libctx alg key keysize mode c))
            = fst (mbedtls_chachapoly_setkey mbedtls_chachapoly_init key)).
Proof.
  intros Hsup Hle Hst Hpos.
  assert (Hgt : (ckeysz >? keysize) = false) by (rewrite Z.gtb_ltb; apply Z.ltb_ge; lia).
  assert (Hlt : (status <? 0) = false) by (apply Z.ltb_ge; lia).
  destruct (init_erased c libctx alg key keysize mode) as (-> & -> & _).
  destruct (erase_clears c) as [_ Hu]. revert Hu.
  generalize (object (erase c)). intros [i g p a e d]. cbn. intros ->.
  unfold setkey_status in Hst. rewrite Hsup in Hst.
  destruct alg; cbn in Hsup; inversion Hsup; subst cid ckeysz; inversion Hst as [Hs];
    open_method; cbn; rewrite Hgt; cbn.
  1-3: destruct (mbedtls_gcm_setkey mbedtls_gcm_init _ key _) as [g' st];
    cbn in Hs |- *; subst st; rewrite Hlt; cbn; auto 10.
  destruct (mbedtls_chachapoly_setkey mbedtls_chachapoly_init key) as [g' st];
    cbn in Hs |- *; subst st; rewrite Hlt; cbn; auto 10.
Qed.

(** C1.  Given a library that authenticates (a verified tag stops verifying
    when one bit of ciphertext, tag or associated data is inverted, and a
    failed call leaves only zero bytes in [output]): whenever [decrypt] of an
    initialized object returns [true] for a ciphertext, 16-byte tag and
    associated data, it returns [false] for every single-bit change of them,
    with nothing but zero bytes in [output]; and whenever [decrypt] returns
    [false] at all, [output] holds nothing but zero bytes. *)
Theorem decrypt_rejects_single_bit_flips
    (c : CipherContextAEAD) ct tag iv ad plaintext ct' tag' ad' :
  mbedtls_authenticates ->
  initialized c = true ->
  List.length tag = 16%nat ->
  result (decrypt ct (len ct) iv (Some tag) ad (len ad) c) = Ok (true, plaintext) ->
  single_bit_flip ct tag ad ct' tag' ad' ->
  (exists output,
      result (decrypt ct' (len ct') iv (Some tag') ad' (len ad') c) = Ok (false, output)
      /\ all_zero output)
  /\ (forall input length iv0 tag0 ad0 ad_len output,
        result (decrypt input length iv0 tag0 ad0 ad_len c) = Ok (false, output) ->
        all_zero output).
Proof.
  intros L Hi Ht Hok Hflip.
  assert (Hzero : forall input length iv0 tag0 ad0 ad_len output,
             result (decrypt input length iv0 tag0 ad0 ad_len c) = Ok (false, output) ->
             all_zero output).
  { intros input length iv0 tag0 ad0 ad_len output.
    rewrite decrypt_initialized by exact Hi.
    destruct (aead_decrypt c); cbv zeta; intros E; inversion E as [[Hs Ho]];
      apply Z.eqb_neq in Hs.
    - apply (gcm_failure_zeroes_output L); exact Hs.
    - apply (chachapoly_failure_zeroes_output L); exact Hs. }
  split; [|exact Hzero].
  rewrite decrypt_initialized in Hok |- * by exact Hi.
  destruct (aead_decrypt c); cbv zeta in *; inversion Hok as [[Hs Ho]];
    apply Z.eqb_eq in Hs; eexists; (split; [apply f_equal, f_equal2; [|reflexivity]|]).
  - apply Z.eqb_neq. eapply (gcm_detects_bit_flips L); eassumption.
  - apply (gcm_failure_zeroes_output L).
    eapply (gcm_detects_bit_flips L); eassumption.
  - apply Z.eqb_neq. eapply (chachapoly_detects_bit_flips L); eassumption.
  - apply (chachapoly_failure_zeroes_output L).
    eapply (chachapoly_detects_bit_flips L); eassumption.
Qed.

(** C2.  Given a library that is correct (it accepts a key of the cipher's
    size, and its decryption undoes its encryption): for each of the four
    algorithms, a key of exactly the size [cipher_type] reports, a 12-byte
    IV, any associated data and any plaintext, both possibly empty, [init]
    succeeds on any two objects, [encrypt] on the first returns a ciphertext
    and a tag, and [decrypt] of these with the same IV and associated data
    returns [true] and the plaintext, on the second object as well as on the
    object that encrypted. *)
Theorem decrypt_encrypt_round_trip
    (enc dec : CipherContextAEAD) libctx1 libctx2 alg cid ckeysz key mode1 mode2
    iv ad plaintext :
  mbedtls_correct ->
  cipher_type alg = Ok (cid, ckeysz) ->
  len key = ckeysz ->
  len iv = IV_LEN ->
  result (init libctx1 alg key ckeysz mode1 enc) = Ok tt
  /\ result (init libctx2 alg key ckeysz mode2 dec) = Ok tt
  /\ exists ct tag,
      result (encrypt plaintext (len plaintext) iv ad (len ad)
                (object (init libctx1 alg key ckeysz mode1 enc))) = Ok (ct, tag)
      /\ result (decrypt ct (len plaintext) iv (Some tag) ad (len ad)
                   (object (init libctx2 alg key ckeysz mode2 dec))) = Ok (true, plaintext)
      /\ result (decrypt ct (len plaintext) iv (Some tag) ad (len ad)
                   (object (encrypt plaintext (len plaintext) iv ad (len ad)
                              (object (init libctx1 alg key ckeysz mode1 enc)))))
         = Ok (true, plaintext).
Proof.
  intros L Hsup Hk Hiv.
  assert (Hst : exists status, setkey_status alg key = Some status /\ 0 <= status
             /\ (cid = MBEDTLS_CIPHER_ID_AES -> In (ckeysz * 8) [128; 192; 256]
                                                /\ len key = ckeysz * 8 / 8)).
  { pose proof Hsup as Hc. apply cipher_type_supported in Hc as [_ Hc].
    unfold setkey_status. rewrite Hsup.
    destruct Hc as [(-> & -> & ->) | [(-> & -> & ->) | [(-> & -> & ->) | (-> & -> & ->)]]];
      eexists; (split; [reflexivity|]); (split; [|try discriminate]).
    1-6: try (apply (gcm_accepts_key L); cbn; auto); try (intros _; cbn; auto).
    apply (chachapoly_accepts_key L); exact Hk. }
  destruct Hst as (status & Hst & Hpos & Hbits).
  destruct (init_succeeds enc libctx1 alg key ckeysz mode1 cid ckeysz status
              Hsup (Z.le_refl _) Hst Hpos)
    as (R1 & I1 & B1).
  destruct (init_succeeds dec libctx2 alg key ckeysz mode2 cid ckeysz status
              Hsup (Z.le_refl _) Hst Hpos)
    as (R2 & I2 & B2).
  split; [exact R1|]. split; [exact R2|].
  destruct (encrypt_initialized (object (init libctx1 alg key ckeysz mode1 enc))
              plaintext (len plaintext) iv ad (len ad) I1) as [-> ->].
  destruct B1 as [(C & E1 & D1 & G1) | (C & E1 & D1 & G1)];
    destruct B2 as [(C' & E2 & D2 & G2) | (C' & E2 & D2 & G2)]; try congruence.
  - destruct (Hbits C) as [Hin Hlen]. subst cid.
    destruct (gcm_round_trip L key (ckeysz * 8) iv ad plaintext Hin Hlen Hiv)
      as (ct & tag & Henc & Hdec).
    exists ct, tag. rewrite !decrypt_initialized by assumption.
    rewrite E1, D1, D2, G1, G2. cbv zeta. rewrite Henc, Hdec. auto.
  - assert (Hlen : len key = 32).
    { apply cipher_type_supported in Hsup as [_ Hc]. rewrite Hk. intuition congruence. }
    destruct (chachapoly_round_trip L key iv ad plaintext Hlen Hiv)
      as (ct & tag & Henc & Hdec).
    exists ct, tag. rewrite !decrypt_initialized by assumption.
    rewrite E1, D1, D2, G1, G2. cbv zeta. rewrite Henc, Hdec. auto.
Qed.

End Cryptography.

(** ** The small library meets both contracts *)

Lemma lxor_power_changes (x j : Z) : 0 <= j -> Z.lxor x (2 ^ j) <> x.
Proof.
  intros Hj E.
  assert (P : 2 ^ j = 0).
  { transitivity (Z.lxor x (Z.lxor x (2 ^ j))).
    - rewrite <- Z.lxor_assoc, Z.lxor_nilpotent, Z.lxor_0_l. reflexivity.
    - rewrite E. apply Z.lxor_nilpotent. }
  pose proof (Z.pow_pos_nonneg 2 j). lia.
Qed.

Lemma flip_bit_changes (i : nat) (j : Z) (b : bytes) :
  (i < List.length b)%nat -> 0 <= j -> flip_bit i j b <> b.
Proof.
  revert i. induction b as [|x t IH]; intros [|i] Hi Hj; simpl in *; try lia.
  - intros E. inversion E as [E']. exact (lxor_power_changes _ _ Hj E').
  - intros E. inversion E as [E']. apply (IH i); [lia | exact Hj | exact E'].
Qed.

Lemma xor_all_flip_bit (i : nat) (j : Z) (b : bytes) :
  (i < List.length b)%nat ->
  Small.xor_all (flip_bit i j b) = Z.lxor (Small.xor_all b) (2 ^ j).
Proof.
  revert i. induction b as [|x t IH]; intros [|i] Hi; simpl in *; try lia.
  - rewrite !Z.lxor_assoc. f_equal. apply Z.lxor_comm.
  - rewrite IH by lia. symmetry. apply Z.lxor_assoc.
Qed.

Lemma take_len (b : bytes) : Small.take (len b) b = b.
Proof.
  unfold Small.take, len. rewrite Nat2Z.id. apply firstn_all.
Qed.

Lemma crypt_len (key nonce data : bytes) : len (Small.crypt key nonce data) = len data.
Proof.
  unfold len, Small.crypt. rewrite length_map. reflexivity.
Qed.

Lemma crypt_involutive (key nonce data : bytes) :
  Small.crypt key nonce (Small.crypt key nonce data) = data.
Proof.
  unfold Small.crypt. rewrite map_map. rewrite <- (map_id data) at 2.
  apply map_ext. intros x.
  rewrite <- Z.lxor_assoc, Z.lxor_nilpotent. apply Z.lxor_0_l.
Qed.

Lemma same_bytes_refl (b : bytes) : Small.same_bytes b b = true.
Proof.
  unfold Small.same_bytes. destruct (list_eq_dec Z.eq_dec b b); congruence.
Qed.

Lemma same_bytes_true (a b : bytes) : Small.same_bytes a b = true -> a = b.
Proof.
  unfold Small.same_bytes. destruct (list_eq_dec Z.eq_dec a b); congruence.
Qed.

Lemma same_bytes_false (a b : bytes) : a <> b -> Small.same_bytes a b = false.
Proof.
  unfold Small.same_bytes. destruct (list_eq_dec Z.eq_dec a b); congruence.
Qed.

Lemma take_16 (b : bytes) : List.length b = 16%nat -> Small.take 16 b = b.
Proof.
  intros H. unfold Small.take. change (Z.to_nat 16) with 16%nat.
  rewrite <- H. apply firstn_all.
Qed.

Lemma all_zero_zeroes (n : Z) : all_zero (Small.zeroes n).
Proof.
  unfold all_zero, Small.zeroes. apply Forall_forall. intros x H.
  apply repeat_spec in H. exact H.
Qed.

(** A tag that is the checksum of its data is not the checksum of the data
    with one bit inverted, and stops being it with one bit of its own inverted. *)
Lemma mac_detects_bit_flips (key nonce ct tag ad ct' tag' ad' : bytes) :
  single_bit_flip ct tag ad ct' tag' ad' ->
  tag = Small.mac key nonce ad ct ->
  tag' <> Small.mac key nonce ad' ct'.
Proof.
  intros [i j Hi Hj | i j Hi Hj | i j Hi Hj] E.
  - subst tag. intros C. apply (f_equal (fun l => nth 0 l 0)) in C. cbn in C.
    rewrite xor_all_flip_bit in C by exact Hi.
    symmetry in C. exact (lxor_power_changes _ _ (proj1 Hj) C).
  - rewrite <- E. apply flip_bit_changes; [exact Hi | lia].
  - subst tag. intros C. apply (f_equal (fun l => nth 1 l 0)) in C. cbn in C.
    rewrite xor_all_flip_bit in C by exact Hi.
    symmetry in C. exact (lxor_power_changes _ _ (proj1 Hj) C).
Qed.

Lemma mac_length (key nonce ad ct : bytes) :
  List.length (Small.mac key nonce ad ct) = 16%nat.
Proof. reflexivity. Qed.

Lemma small_gcm_auth_decrypt (key iv ad tag ct : bytes) :
  List.length tag = 16%nat ->
  Small.gcm_auth_decrypt (Some key) (len ct) iv IV_LEN ad (len ad) (Some tag) AUTH_TAG_LEN ct
  = if Small.same_bytes tag (Small.mac key (Small.take 12 iv) ad ct)
    then (0, Small.crypt key (Small.take 12 iv) ct)
    else (Small.MBEDTLS_ERR_GCM_AUTH_FAILED, Small.zeroes (len ct)).
Proof.
  intros Ht. unfold Small.gcm_auth_decrypt, Small.gcm_crypt_and_tag.
  rewrite !take_len. change AUTH_TAG_LEN with 16. change IV_LEN with 12.
  rewrite (take_16 tag Ht), (take_16 _ (mac_length _ _ _ _)).
  reflexivity.
Qed.

Lemma small_chachapoly_auth_decrypt (key iv ad tag ct : bytes) :
  List.length tag = 16%nat ->
  Small.chachapoly_auth_decrypt (Some key) (len ct) iv ad (len ad) (Some tag) ct
  = if Small.same_bytes tag (Small.mac key (Small.take 12 iv) ad ct)
    then (0, Small.crypt key (Small.take 12 iv) ct)
    else (Small.MBEDTLS_ERR_CHACHAPOLY_AUTH_FAILED, Small.zeroes (len ct)).
Proof.
  intros Ht. unfold Small.chachapoly_auth_decrypt.
  rewrite !take_len, (take_16 tag Ht). reflexivity.
Qed.

Lemma xor_aead_authenticates : @mbedtls_authenticates Small.xor_aead.
Proof.
  constructor; cbn [mbedtls_gcm_auth_decrypt mbedtls_chachapoly_auth_decrypt Small.xor_aead
                    mbedtls_gcm_context mbedtls_chachapoly_context].
  - intros [key|] iv ad ct tag ct' tag' ad' Ht Hok Hflip; [|discriminate Hok].
    destruct (single_bit_flip_len _ _ _ _ _ _ Hflip) as (_ & _ & Ht').
    rewrite small_gcm_auth_decrypt in Hok |- * by congruence.
    destruct (Small.same_bytes tag _) eqn:E; [|discriminate Hok].
    apply same_bytes_true in E.
    rewrite same_bytes_false; [discriminate|].
    eapply mac_detects_bit_flips; eassumption.
  - intros g length iv iv_len ad ad_len [t|] tag_len input; cbn; [|constructor].
    unfold Small.gcm_auth_decrypt, Small.gcm_crypt_and_tag.
    destruct g as [key|]; cbn; [|constructor].
    destruct (Small.same_bytes _ _); cbn; intros H; [congruence | apply all_zero_zeroes].
  - intros [key|] iv ad ct tag ct' tag' ad' Ht Hok Hflip; [|discriminate Hok].
    destruct (single_bit_flip_len _ _ _ _ _ _ Hflip) as (_ & _ & Ht').
    rewrite small_chachapoly_auth_decrypt in Hok |- * by congruence.
    destruct (Small.same_bytes tag _) eqn:E; [|discriminate Hok].
    apply same_bytes_true in E.
    rewrite same_bytes_false; [discriminate|].
    eapply mac_detects_bit_flips; eassumption.
  - intros [key|] length iv ad ad_len [t|] input; cbn; try constructor.
    destruct (Small.same_bytes _ _); cbn; intros H; [congruence | apply all_zero_zeroes].
Qed.

Lemma xor_aead_correct : @mbedtls_correct Small.xor_aead.
Proof.
  constructor; cbn [mbedtls_gcm_auth_decrypt mbedtls_chachapoly_auth_decrypt Small.xor_aead
                    mbedtls_gcm_crypt_and_tag mbedtls_chachapoly_encrypt_and_tag
                    mbedtls_gcm_setkey mbedtls_chachapoly_setkey
                    mbedtls_gcm_init mbedtls_chachapoly_init
                    mbedtls_gcm_context mbedtls_chachapoly_context].
  - intros key keybits Hin _. cbn in Hin.
    destruct Hin as [<- | [<- | [<- | []]]]; cbn; lia.
  - intros key keybits iv ad plaintext Hin Hk Hiv.
    assert (G : fst (Small.gcm_setkey None MBEDTLS_CIPHER_ID_AES key keybits)
                = Some (Small.take (keybits / 8) key)).
    { cbn in Hin. destruct Hin as [<- | [<- | [<- | []]]]; reflexivity. }
    cbv zeta. rewrite G. set (k := Small.take (keybits / 8) key).
    exists (Small.crypt k (Small.take 12 iv) plaintext),
           (Small.mac k (Small.take 12 iv) ad (Small.crypt k (Small.take 12 iv) plaintext)).
    split.
    + unfold Small.gcm_crypt_and_tag. rewrite !take_len.
      change AUTH_TAG_LEN with 16. change IV_LEN with 12.
      rewrite (take_16 _ (mac_length _ _ _ _)). reflexivity.
    + rewrite <- (crypt_len k (Small.take 12 iv) plaintext).
      rewrite small_gcm_auth_decrypt by apply mac_length.
      rewrite same_bytes_refl, crypt_involutive. reflexivity.
  - intros key _. cbn. lia.
  - intros key iv ad plaintext Hk Hiv. cbv zeta.
    change (fst (Small.chachapoly_setkey None key)) with (Some (Small.take 32 key)).
    set (k := Small.take 32 key).
    exists (Small.crypt k (Small.take 12 iv) plaintext),
           (Small.mac k (Small.take 12 iv) ad (Small.crypt k (Small.take 12 iv) plaintext)).
    split.
    + unfold Small.chachapoly_encrypt_and_tag. rewrite !take_len. reflexivity.
    + rewrite <- (crypt_len k (Small.take 12 iv) plaintext).
      rewrite small_chachapoly_auth_decrypt by apply mac_length.
      rewrite same_bytes_refl, crypt_involutive. reflexivity.
Qed.

(** * The statements on concrete buffers *)

(** AES-256-GCM, all-zero key and IV, no associated data: the tag of [hello]
    verifies, and with the lowest bit of its last byte inverted it does not. *)
Lemma decrypt_rejects_single_bit_flips_witness :
  result (decrypt Small.hello 5 Small.zero_iv (Some Small.hello_tag) [] 0
            (Small.aes256 Small.xor_aead)) = Ok (true, Small.hello)
  /\ exists output,
      result (decrypt Small.hello 5 Small.zero_iv (Some (flip_bit 15 0 Small.hello_tag)) [] 0
                (Small.aes256 Small.xor_aead)) = Ok (false, output)
      /\ all_zero output.
Proof.
  split; [reflexivity|].
  apply (proj1 (@decrypt_rejects_single_bit_flips Small.xor_aead
                  (Small.aes256 Small.xor_aead) Small.hello Small.hello_tag Small.zero_iv []
                  Small.hello Small.hello (flip_bit 15 0 Small.hello_tag) []
                  xor_aead_authenticates eq_refl eq_refl eq_refl
                  (flip_in_tag Small.hello Small.hello_tag [] 15 0
                     ltac:(vm_compute; lia) ltac:(lia)))).
Defined.

(** ChaCha20-Poly1305, associated data [header], empty plaintext: an empty
    ciphertext and a 16-byte tag, which decrypt to the empty plaintext. *)
Lemma decrypt_encrypt_round_trip_witness :
  exists ct tag,
    result (encrypt [] 0 Small.counting_nonce Small.header 6 (Small.chacha Small.xor_aead))
    = Ok (ct, tag)
    /\ List.length tag = 16%nat
    /\ result (decrypt ct 0 Small.counting_nonce (Some tag) Small.header 6
                 (Small.chacha Small.xor_aead))
       = Ok (true, []).
Proof.
  destruct (@decrypt_encrypt_round_trip Small.xor_aead Small.names
              Small.fresh Small.fresh 0 0 CryptoAlgs.CHACHA20_POLY1305
              MBEDTLS_CIPHER_ID_CHACHA20 32 Small.counting_key 1 1
              Small.counting_nonce Small.header []
              xor_aead_correct eq_refl eq_refl eq_refl)
    as (_ & _ & ct & tag & E & D & _).
  exists ct, tag. split; [exact E|]. split; [|exact D].
  vm_compute in E. inversion E. reflexivity.
Defined.

(** An object keyed for ChaCha20-Poly1305, re-initialised for AES-256-GCM
    when [mbedtls_gcm_setkey] fails. *)
Lemma init_setkey_failure_leaves_uninitialized_witness :
  initialized (Small.chacha Small.alloc_failure) = true
  /\ result (init (N := Small.alloc_failure) (names := Small.names)
                  0 CryptoAlgs.AES_256_GCM Small.zero_key 32 1
                  (Small.chacha Small.alloc_failure))
     = Throw (mbedtls_aead_error "mbedtls_gcm_setkey")
  /\ initialized (object (init (N := Small.alloc_failure) (names := Small.names)
                               0 CryptoAlgs.AES_256_GCM Small.zero_key 32 1
                               (Small.chacha Small.alloc_failure))) = false.
Proof.
  split; [reflexivity|].
  destruct (@init_setkey_failure_leaves_uninitialized Small.alloc_failure Small.names
              (Small.chacha Small.alloc_failure) 0 CryptoAlgs.AES_256_GCM Small.zero_key 32 1
              MBEDTLS_CIPHER_ID_AES 32 Small.MBEDTLS_ERR_CIPHER_ALLOC_FAILED
              eq_refl ltac:(lia) eq_refl ltac:(vm_compute; reflexivity))
    as ([(_ & R & _) | (D & _)] & I & _); [|discriminate D].
  split; [exact R | exact I].
Defined.

(** C3 as the specification states it fails.  With a library whose key setup fails,
    [init] of a just constructed object for AES-256-GCM throws after
    [mbedtls_gcm_init] and [mbedtls_gcm_setkey] without a call of
    [mbedtls_gcm_free]: the GCM context is left under construction, and the
    destructor of the object, now uninitialized, makes no native call. *)
Lemma init_setkey_failure_not_torn_down :
  ~ @init_failure_tears_down Small.alloc_failure Small.names
  /\ calls (init (N := Small.alloc_failure) (names := Small.names)
                 0 CryptoAlgs.AES_256_GCM Small.zero_key 32 1 Small.fresh)
     = [call_gcm_init; call_gcm_setkey MBEDTLS_CIPHER_ID_AES 256]
  /\ calls (destructor
              (object (init (N := Small.alloc_failure) (names := Small.names)
                            0 CryptoAlgs.AES_256_GCM Small.zero_key 32 1 Small.fresh)))
     = [].
Proof.
  split; [|split; reflexivity].
  intros H.
  destruct (H Small.fresh 0 CryptoAlgs.AES_256_GCM Small.zero_key 32 1
              MBEDTLS_CIPHER_ID_AES 32 Small.MBEDTLS_ERR_CIPHER_ALLOC_FAILED
              eq_refl ltac:(lia) eq_refl ltac:(vm_compute; reflexivity))
    as (_ & _ & L).
  vm_compute in L. discriminate L.
Qed.

(** C5 as the specification states it fails on an initialized object: the
    [erase] at the head of [init] frees the ChaCha20-Poly1305 context the
    object holds, and only then is the key size compared. *)
Lemma init_short_key_frees_held_backend :
  ~ @short_key_check_precedes_native_calls Small.xor_aead Small.names
  /\ initialized (Small.chacha Small.xor_aead) = true
  /\ result (init (N := Small.xor_aead) (names := Small.names)
                  0 CryptoAlgs.AES_256_GCM (repeat 0 16%nat) 16 1
                  (Small.chacha Small.xor_aead))
     = Throw (mbedtls_aead_error "insufficient key material")
  /\ calls (init (N := Small.xor_aead) (names := Small.names)
                 0 CryptoAlgs.AES_256_GCM (repeat 0 16%nat) 16 1
                 (Small.chacha Small.xor_aead))
     = [call_chachapoly_free].
Proof.
  split; [|repeat split; reflexivity].
  intros H.
  destruct (H (Small.chacha Small.xor_aead) 0 CryptoAlgs.AES_256_GCM (repeat 0 16%nat) 16 1
              MBEDTLS_CIPHER_ID_AES 32 eq_refl ltac:(lia)) as (_ & L).
  vm_compute in L. discriminate L.
Qed.

(** AES-256-GCM with 16 bytes of key, on a keyed and on a new object. *)
Lemma init_insufficient_key_material_witness :
  result (init (N := Small.xor_aead) (names := Small.names)
               0 CryptoAlgs.AES_256_GCM (repeat 0 16%nat) 16 1 (Small.chacha Small.xor_aead))
  = Throw (mbedtls_aead_error "insufficient key material")
  /\ calls (init (N := Small.xor_aead) (names := Small.names)
                 0 CryptoAlgs.AES_256_GCM (repeat 0 16%nat) 16 1 (Small.chacha Small.xor_aead))
     = [call_chachapoly_free]
  /\ calls (init (N := Small.xor_aead) (names := Small.names)
                 0 CryptoAlgs.AES_256_GCM (repeat 0 16%nat) 16 1 Small.fresh)
     = [].
Proof.
  pose proof (@init_insufficient_key_material Small.xor_aead Small.names
                (Small.chacha Small.xor_aead) 0 CryptoAlgs.AES_256_GCM (repeat 0 16%nat) 16 1
                MBEDTLS_CIPHER_ID_AES 32 eq_refl ltac:(lia)) as (E & _).
  pose proof (@init_insufficient_key_material Small.xor_aead Small.names
                Small.fresh 0 CryptoAlgs.AES_256_GCM (repeat 0 16%nat) 16 1
                MBEDTLS_CIPHER_ID_AES 32 eq_refl ltac:(lia)) as (_ & _ & F & _).
  rewrite E. split; [reflexivity|]. split; [reflexivity|]. exact (F eq_refl).
Defined.

(** A just constructed object. *)
Lemma uninitialized_encrypt_decrypt_throw_witness :
  encrypt Small.hello 5 Small.zero_iv [] 0 (Small.fresh (N := Small.xor_aead))
  = (Throw (mbedtls_aead_error "uninitialized"), Small.fresh, [])
  /\ decrypt Small.hello 5 Small.zero_iv (Some Small.hello_tag) [] 0
             (Small.fresh (N := Small.xor_aead))
     = (Throw (mbedtls_aead_error "uninitialized"), Small.fresh, []).
Proof.
  destruct (@uninitialized_encrypt_decrypt_throw Small.xor_aead Small.names Small.fresh
              (@constructed Small.xor_aead Small.names _ _ _ _ _)) as [E D].
  split; [apply E | apply D].
Defined.

(** The tag both at the end of [input] and in [tag]. *)
Lemma decrypt_with_separate_tag_throws_witness :
  TagAtEnd.decrypt (Small.hello ++ Small.hello_tag) 21 Small.zero_iv (Some Small.hello_tag)
                   [] 0 Small.keyed
  = (Throw (mbedtls_aead_error "tag must be null for aead decrypt"), Small.keyed, []).
Proof.
  apply (@decrypt_with_separate_tag_throws Small.xor_aead Small.keyed
           (Small.hello ++ Small.hello_tag) 21 Small.zero_iv Small.hello_tag [] 0 eq_refl).
Defined.

(** Five bytes of input: the output size passed on is [2^64 - 11]. *)
Lemma decrypt_short_length_wraps_witness :
  calls (TagAtEnd.decrypt Small.hello 5 Small.zero_iv None [] 0 Small.keyed)
  = [call_cipher_auth_decrypt_ext 12 0 5 18446744073709551605 16].
Proof.
  destruct (@decrypt_short_length_wraps Small.xor_aead Small.keyed Small.hello 5
              Small.zero_iv [] 0 eq_refl ltac:(unfold AUTH_TAG_LEN; lia))
    as (_ & C & _).
  exact C.
Defined.

(** A new object that has since decrypted, and an object that was keyed for
    ChaCha20-Poly1305 before: the same key gives the same encryption. *)
Lemma encrypt_deterministic_witness :
  result (encrypt Small.hello 5 Small.zero_iv Small.header 6
            (after (names := Small.names)
               [do_decrypt Small.hello 5 Small.zero_iv (Some Small.hello_tag) [] 0]
               (object (init (N := Small.xor_aead) (names := Small.names)
                             0 CryptoAlgs.AES_256_GCM Small.zero_key 32 1 Small.fresh))))
  = result (encrypt Small.hello 5 Small.zero_iv Small.header 6
              (object (init (N := Small.xor_aead) (names := Small.names)
                            7 CryptoAlgs.AES_256_GCM Small.zero_key 32 0
                            (Small.chacha Small.xor_aead)))).
Proof.
  apply (proj1 (@encrypt_deterministic Small.xor_aead Small.names
                  Small.fresh (Small.chacha Small.xor_aead) 0 7 CryptoAlgs.AES_256_GCM
                  Small.zero_key 32 32 1 0
                  [do_decrypt Small.hello 5 Small.zero_iv (Some Small.hello_tag) [] 0] []
                  Small.hello 5 Small.zero_iv Small.header 6
                  eq_refl eq_refl
                  ltac:(repeat constructor) ltac:(constructor))).
Defined.

(** * Further properties of the header *)

Section InitOutcomes.

Context {N : Mbedtls} {names : CryptoAlgs.Names}.

(** X1.  [init] returns exactly when the algorithm is one [cipher_type]
    knows, [keysize] is at least the size it reports and the native key
    setup does not return a negative status; the object is initialized
    afterwards exactly when [init] returned; and [crypto_alg] is the
    algorithm asked for in every case, the failing ones included. *)
Theorem init_succeeds_exactly_when (c : CipherContextAEAD) libctx alg key keysize mode :
  (result (init libctx alg key keysize mode c) = Ok tt
   <-> exists cid ckeysz status,
         cipher_type alg = Ok (cid, ckeysz)
         /\ ckeysz <= keysize
         /\ setkey_status alg key = Some status
         /\ 0 <= status)
  /\ (initialized (object (init libctx alg key keysize mode c)) = true
      <-> result (init libctx alg key keysize mode c) = Ok tt)
  /\ crypto_alg (object (init libctx alg key keysize mode c)) = alg.
Proof.
  destruct (init_erased c libctx alg key keysize mode) as (-> & -> & _).
  destruct (erase_clears c) as [_ Hu]. revert Hu.
  generalize (object (erase c)). intros [i g p a e d]. cbn. intros ->.
  split; [split|split; [split|]].
  - unfold setkey_status.
    destruct alg; open_method; cbn;
      try (destruct (_ >? keysize) eqn:Hgt; cbn);
      try discriminate;
      try (destruct (mbedtls_gcm_setkey _ _ _ _) as [g' st] eqn:Hs; cbn);
      try (destruct (mbedtls_chachapoly_setkey _ _) as [g' st] eqn:Hs; cbn);
      try (destruct (st <? 0) eqn:Hlt; cbn); try discriminate; intros _;
      do 3 eexists; (split; [reflexivity|]);
      (split; [rewrite Z.gtb_ltb in Hgt; apply Z.ltb_ge in Hgt; exact Hgt|]);
      (split; [reflexivity|]); apply Z.ltb_ge in Hlt; exact Hlt.
  - intros (cid & ckeysz & status & Hsup & Hle & Hst & Hpos).
    exact (proj1 (init_succeeds _ libctx alg key keysize mode cid ckeysz status
                    Hsup Hle Hst Hpos)).
  - branches; intros; try discriminate; reflexivity.
  - branches; intros; try discriminate; reflexivity.
  - branches; reflexivity.
Qed.

(** X2.  [init] is not transactional.  When it throws, for whatever reason,
    on an object that was initialized and working, the backend the object
    held has been freed by the [erase] at its head and the object is left
    uninitialized: [encrypt] and [decrypt] throw "uninitialized" from then
    on, without a native call. *)
Theorem failed_init_loses_the_previous_key
    (c : CipherContextAEAD) libctx alg key keysize mode e :
  result (init libctx alg key keysize mode c) = Throw e ->
  (exists l, calls (init libctx alg key keysize mode c) = calls (erase c) ++ l)
  /\ backends_left (calls (erase c)) (held c) = (false, false)
  /\ (forall input length iv ad ad_len,
        encrypt input length iv ad ad_len (object (init libctx alg key keysize mode c))
        = (Throw (mbedtls_aead_error "uninitialized"),
           object (init libctx alg key keysize mode c), []))
  /\ (forall input length iv tag ad ad_len,
        decrypt input length iv tag ad ad_len (object (init libctx alg key keysize mode c))
        = (Throw (mbedtls_aead_error "uninitialized"),
           object (init libctx alg key keysize mode c), [])).
Proof.
  intros H. apply init_throw_uninitialized in H.
  split; [|split; [|split]].
  - destruct (init_erased c libctx alg key keysize mode) as (_ & _ & C).
    eexists. exact C.
  - apply erase_releases.
  - intros. open_method. rewrite H. reflexivity.
  - intros. open_method. rewrite H. reflexivity.
Qed.

(** X3.  [init] reads neither [libctx] nor [mode], and of [keysize] only
    whether it reaches the size [cipher_type] reports: two calls on the same
    object with the same algorithm and key, both with enough key material,
    have the same result, leave the same object and make the same native
    calls. *)
Theorem init_ignores_mode_and_surplus_key_size
    (c : CipherContextAEAD) libctx1 libctx2 alg key keysize1 keysize2 mode1 mode2
    cid ckeysz :
  cipher_type alg = Ok (cid, ckeysz) ->
  ckeysz <= keysize1 ->
  ckeysz <= keysize2 ->
  init libctx1 alg key keysize1 mode1 c = init libctx2 alg key keysize2 mode2 c.
Proof.
  intros Hsup H1 H2.
  assert (G1 : (ckeysz >? keysize1) = false) by (rewrite Z.gtb_ltb; apply Z.ltb_ge; lia).
  assert (G2 : (ckeysz >? keysize2) = false) by (rewrite Z.gtb_ltb; apply Z.ltb_ge; lia).
  destruct c as [i g p a e d].
  destruct alg; cbn in Hsup; inversion Hsup; subst cid ckeysz;
    open_method; cbn; rewrite G1, G2; reflexivity.
Qed.

End InitOutcomes.

Section Dispatch.

Context {N : Mbedtls} {names : CryptoAlgs.Names}.

Lemma dispatch_matches_perform (c : CipherContextAEAD) (r : request) :
  dispatch_matches c -> dispatch_matches (object (perform r c)).
Proof.
  intros H. destruct r as [libctx alg key keysize mode | | |];
    try (rewrite perform_keeps_object by reflexivity; exact H).
  destruct (perform_unfold_init c libctx alg key keysize mode) as (_ & _ & ->).
  destruct (init_erased c libctx alg key keysize mode) as (_ & -> & _).
  destruct (erase_clears c) as [_ Hu]. revert Hu. clear H.
  generalize (object (erase c)). intros [i g p a e d]. cbn. intros ->.
  unfold dispatch_matches.
  branches; intros; try discriminate; auto.
Qed.

Lemma dispatch_matches_after (rs : list request) (c : CipherContextAEAD) :
  dispatch_matches c -> dispatch_matches (after rs c).
Proof.
  revert c. induction rs as [|r rs IH]; intros c H; simpl; [exact H|].
  apply IH, dispatch_matches_perform, H.
Qed.

(** X4.  Whatever calls a client has made on an object since it was
    constructed, if the object is initialized its two bound methods are
    those of the algorithm it was last initialised for, and an [encrypt] or
    a [decrypt] makes exactly one native call: the GCM one-shot call with an
    IV length of 12 and a tag length of 16 for the three AES-GCM algorithms,
    the ChaCha20-Poly1305 one-shot call for ChaCha20-Poly1305, never that of
    the other family. *)
Theorem bound_methods_follow_the_algorithm
    (rs : list request) g p a e d input length iv tag ad ad_len :
  dispatch_matches (after rs (constructor g p a e d))
  /\ (initialized (after rs (constructor g p a e d)) = true ->
      calls (encrypt input length iv ad ad_len (after rs (constructor g p a e d)))
      = [encrypt_call (crypto_alg (after rs (constructor g p a e d))) length ad_len]
      /\ calls (decrypt input length iv tag ad ad_len (after rs (constructor g p a e d)))
         = [decrypt_call (crypto_alg (after rs (constructor g p a e d))) length ad_len]).
Proof.
  assert (D : dispatch_matches (after rs (constructor g p a e d))).
  { apply dispatch_matches_after. intros H. discriminate H. }
  split; [exact D|].
  revert D. generalize (after rs (constructor g p a e d)).
  intros [i0 g0 p0 a0 e0 d0] D Hi. cbn in Hi. subst i0.
  specialize (D eq_refl). cbn in D.
  destruct a0; try (exfalso; exact D); destruct D as [-> ->]; split; branches; reflexivity.
Qed.

(** X5.  On an initialized object a decryption never throws: whatever the
    native call reports, [decrypt] returns a [bool] and leaves the object as
    it was, and the [bool] is [true] exactly when the status the native call
    returned is zero.  An encryption returns what the native call wrote when
    the status that call returned is zero, and otherwise throws the
    exception whose text is "mbedtls_gcm_crypt_and_tag failed with status="
    (for a GCM-bound object) or "mbedtls_chachapoly_encrypt_and_tag failed
    with status=" (for a ChaCha20-Poly1305-bound one) followed by the status
    that call returned. *)
Theorem decrypt_reports_by_value_encrypt_by_exception
    (c : CipherContextAEAD) input length iv tag ad ad_len :
  initialized c = true ->
  (exists b output,
      result (decrypt input length iv tag ad ad_len c) = Ok (b, output)
      /\ object (decrypt input length iv tag ad ad_len c) = c)
  /\ match aead_decrypt c with
     | to_gcm_decrypt =>
         forall status output,
           mbedtls_gcm_auth_decrypt (gcm_ctx c) length iv IV_LEN ad ad_len tag
                                    AUTH_TAG_LEN input = (status, output) ->
           result (decrypt input length iv tag ad ad_len c) = Ok (status =? 0, output)
     | to_chachapoly_decrypt =>
         forall status output,
           mbedtls_chachapoly_auth_decrypt (chachapoly_ctx c) length iv ad ad_len tag input
           = (status, output) ->
           result (decrypt input length iv tag ad ad_len c) = Ok (status =? 0, output)
     end
  /\ match aead_encrypt c with
     | to_gcm_encrypt =>
         forall status output t,
           mbedtls_gcm_crypt_and_tag (gcm_ctx c) MBEDTLS_GCM_ENCRYPT length iv IV_LEN
                                     ad ad_len input AUTH_TAG_LEN = (status, output, t) ->
           (status = 0 -> result (encrypt input length iv ad ad_len c) = Ok (output, t))
           /\ (status <> 0 ->
               result (encrypt input length iv ad ad_len c)
               = Throw (mbedtls_aead_error
                          ("mbedtls_gcm_crypt_and_tag failed with status="
                           ++ show_int status)))
     | to_chachapoly_encrypt =>
         forall status output t,
           mbedtls_chachapoly_encrypt_and_tag (chachapoly_ctx c) length iv ad ad_len input
           = (status, output, t) ->
           (status = 0 -> result (encrypt input length iv ad ad_len c) = Ok (output, t))
           /\ (status <> 0 ->
               result (encrypt input length iv ad ad_len c)
               = Throw (mbedtls_aead_error
                          ("mbedtls_chachapoly_encrypt_and_tag failed with status="
                           ++ show_int status)))
     end.
Proof.
  intros H. split; [|split].
  - rewrite decrypt_initialized by exact H.
    assert (O : object (decrypt input length iv tag ad ad_len c) = c).
    { destruct c as [i0 g0 p0 a0 e0 d0]. cbn in H. subst i0. branches; reflexivity. }
    rewrite O. destruct (aead_decrypt c); cbv zeta; eauto.
  - rewrite decrypt_initialized by exact H.
    destruct (aead_decrypt c); cbv zeta; intros status output E; rewrite E; reflexivity.
  - destruct (encrypt_initialized c input length iv ad ad_len H) as [_ ->].
    destruct (aead_encrypt c); cbv zeta; intros status output t E; rewrite E;
      cbn [fst snd]; split; intros S.
    + subst status. reflexivity.
    + apply Z.eqb_neq in S. rewrite S. reflexivity.
    + subst status. reflexivity.
    + apply Z.eqb_neq in S. rewrite S. reflexivity.
Qed.

End Dispatch.

Section Resources.

Context {N : Mbedtls} {names : CryptoAlgs.Names}.




End Resources.

Section TagAtEndCalls.

Context {N : Mbedtls}.

Lemma size_t_add_small (a b : Z) :
  0 <= a + b < 2 ^ 64 -> size_t_add a b = a + b.
Proof.
  intros H. unfold size_t_add, size_t_max_plus_1. apply Z.mod_small. exact H.
Qed.

Lemma size_t_sub_small (a b : Z) :
  0 <= a - b < 2 ^ 64 -> size_t_sub a b = a - b.
Proof.
  intros H. unfold size_t_sub, size_t_max_plus_1. apply Z.mod_small. exact H.
Qed.

(** X7.  On an uninitialized object of the tag-at-end generation the check
    of [initialized] comes first: [encrypt] throws "uninitialized", and so
    does [decrypt], also when it is given a [tag] that is not null, which on
    an initialized object is the error it reports.  No native call is made
    and the object is left as it was. *)
Theorem tag_at_end_uninitialized_throws_first
    (c : TagAtEnd.CipherContextAEAD) input length iv tag ad ad_len :
  TagAtEnd.initialized c = false ->
  TagAtEnd.encrypt input length iv ad ad_len c
  = (Throw (mbedtls_aead_error "uninitialized"), c, [])
  /\ TagAtEnd.decrypt input length iv tag ad ad_len c
     = (Throw (mbedtls_aead_error "uninitialized"), c, []).
Proof.
  intros H. split; open_tag_at_end; rewrite H; reflexivity.
Qed.

(** X8.  [encrypt] of the tag-at-end generation, on an initialized object
    and for a length that leaves room for the tag below [2^64], makes one
    native call, [mbedtls_cipher_auth_encrypt_ext] with an IV length of 12,
    a tag length of 16 and an output capacity of exactly [length + 16], and
    leaves the object as it was.  When the status that call returned is
    zero it returns what the call wrote; otherwise it throws
    "mbedtls_cipher_auth_encrypt failed with status=" followed by the status
    that call returned. *)
Theorem tag_at_end_encrypt_room_for_tag
    (c : TagAtEnd.CipherContextAEAD) input length iv ad ad_len :
  TagAtEnd.initialized c = true ->
  0 <= length < 2 ^ 64 - 16 ->
  calls (TagAtEnd.encrypt input length iv ad ad_len c)
  = [call_cipher_auth_encrypt_ext 12 ad_len length (length + 16) 16]
  /\ object (TagAtEnd.encrypt input length iv ad ad_len c) = c
  /\ forall status output olen,
      mbedtls_cipher_auth_encrypt_ext (TagAtEnd.ctx c) iv IV_LEN ad ad_len input length
                                      (length + 16) AUTH_TAG_LEN = (status, output, olen) ->
      (status = 0 -> result (TagAtEnd.encrypt input length iv ad ad_len c) = Ok output)
      /\ (status <> 0 ->
          result (TagAtEnd.encrypt input length iv ad ad_len c)
          = Throw (mbedtls_aead_error
                     ("mbedtls_cipher_auth_encrypt failed with status="
                      ++ show_int status))).
Proof.
  intros H Hl.
  assert (W : size_t_add length AUTH_TAG_LEN = length + 16).
  { apply size_t_add_small. unfold AUTH_TAG_LEN. lia. }
  open_tag_at_end. rewrite H. cbn [negb fst snd app]. rewrite W.
  destruct (mbedtls_cipher_auth_encrypt_ext (TagAtEnd.ctx c) iv IV_LEN ad ad_len input length
              (length + 16) AUTH_TAG_LEN) as [[status output] olen].
  cbn [fst snd app].
  destruct (status =? 0) eqn:E; cbn [fst snd app]; (split; [reflexivity|]);
    (split; [reflexivity|]); intros status' output' olen' X; inversion X; subst;
    split; intros S; try reflexivity.
  - apply Z.eqb_eq in E. contradiction.
  - apply Z.eqb_neq in E. contradiction.
Qed.

(** X9.  [decrypt] of the tag-at-end generation, on an initialized object
    with a null [tag] and a length of at least the 16 bytes of the tag, never
    throws: it makes one native call, [mbedtls_cipher_auth_decrypt_ext] with
    an output capacity of exactly [length - 16], leaves the object as it
    was, and returns [true] only if the call's status is zero and the call
    reported [length - 16] bytes of plaintext. *)
Theorem tag_at_end_decrypt_plaintext_size
    (c : TagAtEnd.CipherContextAEAD) input length iv ad ad_len :
  TagAtEnd.initialized c = true ->
  16 <= length < 2 ^ 64 ->
  calls (TagAtEnd.decrypt input length iv None ad ad_len c)
  = [call_cipher_auth_decrypt_ext 12 ad_len length (length - 16) 16]
  /\ object (TagAtEnd.decrypt input length iv None ad ad_len c) = c
  /\ exists b output,
      result (TagAtEnd.decrypt input length iv None ad ad_len c) = Ok (b, output)
      /\ (b = true ->
          mbedtls_cipher_auth_decrypt_ext (TagAtEnd.ctx c) iv IV_LEN ad ad_len input length
                                          (length - 16) AUTH_TAG_LEN
          = (0, output, length - 16)).
Proof.
  intros H Hl.
  assert (W : size_t_sub length AUTH_TAG_LEN = length - 16).
  { apply size_t_sub_small. unfold AUTH_TAG_LEN. lia. }
  open_tag_at_end. rewrite H. cbn [negb fst snd app]. rewrite W.
  destruct (mbedtls_cipher_auth_decrypt_ext (TagAtEnd.ctx c) iv IV_LEN ad ad_len input length
              (length - 16) AUTH_TAG_LEN) as [[status output] olen].
  cbn [fst snd app]. repeat split.
  do 2 eexists. split; [reflexivity|].
  intros B. apply andb_true_iff in B. destruct B as [B1 B2].
  apply Z.eqb_eq in B1, B2. subst. reflexivity.
Qed.

(** X10.  The two methods of the tag-at-end generation fit together.  Given
    a cipher layer whose decryption undoes its encryption: what [encrypt]
    returns for a plaintext, passed to [decrypt] with a null [tag], the same
    IV and associated data and the plaintext's length plus 16, makes
    [decrypt] return [true] and the plaintext. *)
Theorem tag_at_end_round_trip
    (c : TagAtEnd.CipherContextAEAD) iv ad plaintext output :
  cipher_layer_correct ->
  TagAtEnd.initialized c = true ->
  len plaintext + 16 < 2 ^ 64 ->
  result (TagAtEnd.encrypt plaintext (len plaintext) iv ad (len ad) c) = Ok output ->
  result (TagAtEnd.decrypt output (len plaintext + 16) iv None ad (len ad) c)
  = Ok (true, plaintext).
Proof.
  intros L H Hl.
  assert (P : 0 <= len plaintext) by (unfold len; lia).
  assert (W1 : size_t_add (len plaintext) AUTH_TAG_LEN = len plaintext + AUTH_TAG_LEN).
  { apply size_t_add_small. unfold AUTH_TAG_LEN. lia. }
  assert (W2 : size_t_sub (len plaintext + 16) AUTH_TAG_LEN = len plaintext).
  { rewrite size_t_sub_small; unfold AUTH_TAG_LEN; lia. }
  open_tag_at_end. rewrite H. cbn [negb fst snd app]. rewrite W1, W2.
  destruct (mbedtls_cipher_auth_encrypt_ext (TagAtEnd.ctx c) iv IV_LEN ad (len ad) plaintext
              (len plaintext) (len plaintext + AUTH_TAG_LEN) AUTH_TAG_LEN)
    as [[status out] olen] eqn:E.
  cbn [fst snd app].
  destruct (status =? 0) eqn:S; cbn [fst snd app]; intros R; [|discriminate R].
  inversion R. subst out. apply Z.eqb_eq in S. subst status.
  change (len plaintext + 16) with (len plaintext + AUTH_TAG_LEN).
  rewrite (L _ _ _ _ _ _ E). cbn [fst snd app].
  rewrite Z.eqb_refl. reflexivity.
Qed.

End TagAtEndCalls.

Section Setup.

Context {N : Mbedtls} {names : CryptoAlgs.Names}.

(** X11.  With a supported algorithm and enough key material, [init] makes,
    after the calls of its [erase], exactly the native init call and the
    native key setup of that algorithm's family, in this order and whether
    or not the key setup then fails.  The key length it passes to GCM is
    eight times the size [cipher_type] reports (128, 192 or 256 bits), not
    eight times [keysize]: key bytes beyond the cipher's size are not
    announced to the library.  The native context left in the object is the
    one that key setup returned for the caller's key buffer. *)
Theorem init_setup_calls
    (c : CipherContextAEAD) libctx alg key keysize mode cid ckeysz :
  cipher_type alg = Ok (cid, ckeysz) ->
  ckeysz <= keysize ->
  (cid = MBEDTLS_CIPHER_ID_AES
   /\ calls (init libctx alg key keysize mode c)
      = calls (erase c) ++ [call_gcm_init; call_gcm_setkey MBEDTLS_CIPHER_ID_AES (ckeysz * 8)]
   /\ gcm_ctx (object (init libctx alg key keysize mode c))
      = fst (mbedtls_gcm_setkey mbedtls_gcm_init MBEDTLS_CIPHER_ID_AES key (ckeysz * 8)))
  \/ (cid = MBEDTLS_CIPHER_ID_CHACHA20
      /\ calls (init libctx alg key keysize mode c)
         = calls (erase c) ++ [call_chachapoly_init; call_chachapoly_setkey]
      /\ chachapoly_ctx (object (init libctx alg key keysize mode c))
         = fst (mbedtls_chachapoly_setkey mbedtls_chachapoly_init key)).
Proof.
  intros Hsup Hle.
  assert (Hgt : (ckeysz >? keysize) = false) by (rewrite Z.gtb_ltb; apply Z.ltb_ge; lia).
  destruct (init_erased c libctx alg key keysize mode) as (_ & -> & ->).
  destruct (erase_clears c) as [_ Hu]. revert Hu.
  generalize (calls (erase c)) (object (erase c)). intros l [i g p a e d]. cbn. intros ->.
  destruct alg; cbn in Hsup; inversion Hsup; subst cid ckeysz;
    open_method; cbn; rewrite Hgt; cbn.
  1-3: left; destruct (mbedtls_gcm_setkey mbedtls_gcm_init _ key _) as [g' st]; cbn;
    destruct (st <? 0); cbn; auto.
  right; destruct (mbedtls_chachapoly_setkey mbedtls_chachapoly_init key) as [g' st]; cbn;
    destruct (st <? 0); cbn; auto.
Qed.

(** X12.  The destructor frees the native context the object encrypts with.
    Whatever calls a client has made on an object since it was constructed,
    if the object is initialized then its destructor returns after exactly
    one native call, the free of the family its [encrypt] is bound to, and
    leaves the object uninitialized. *)
Theorem destructor_frees_the_bound_backend (rs : list request) g p a e d :
  initialized (after rs (constructor g p a e d)) = true ->
  result (destructor (after rs (constructor g p a e d))) = Ok tt
  /\ calls (destructor (after rs (constructor g p a e d)))
     = [match aead_encrypt (after rs (constructor g p a e d)) with
        | to_gcm_encrypt => call_gcm_free
        | to_chachapoly_encrypt => call_chachapoly_free
        end]
  /\ initialized (object (destructor (after rs (constructor g p a e d)))) = false.
Proof.
  assert (D : dispatch_matches (after rs (constructor g p a e d))).
  { apply dispatch_matches_after. intros H. discriminate H. }
  revert D. generalize (after rs (constructor g p a e d)).
  intros [i0 g0 p0 a0 e0 d0] D Hi. cbn in Hi. subst i0.
  specialize (D eq_refl). cbn in D.
  destruct a0; try (exfalso; exact D); destruct D as [-> ->]; repeat split.
Qed.

End Setup.

(** ** The small library meets the contract of the cipher layer *)

Lemma take_app_len (a b : bytes) : Small.take (len a) (a ++ b) = a.
Proof.
  unfold Small.take, len. rewrite Nat2Z.id, firstn_app, firstn_all, Nat.sub_diag.
  cbn. apply app_nil_r.
Qed.

Lemma drop_app_len (a b : bytes) : Small.drop (len a) (a ++ b) = b.
Proof.
  unfold Small.drop, len. rewrite Nat2Z.id, skipn_app, skipn_all, Nat.sub_diag.
  reflexivity.
Qed.

Lemma xor_aead_cipher_layer_correct : @cipher_layer_correct Small.xor_aead.
Proof.
  intros [key|] iv ad plaintext output olen;
    cbn [mbedtls_cipher_auth_encrypt_ext mbedtls_cipher_auth_decrypt_ext Small.xor_aead];
    [|discriminate].
  unfold Small.cipher_auth_encrypt_ext, Small.cipher_auth_decrypt_ext.
  change AUTH_TAG_LEN with 16. change IV_LEN with 12.
  rewrite !take_len, Z.ltb_irrefl.
  rewrite (take_16 _ (mac_length _ _ _ _)).
  intros E. inversion E as [[Ho Hl]]. clear E.
  assert (P : 0 <= len plaintext) by (unfold len; lia).
  replace (len plaintext + 16 <? 16) with false by (symmetry; apply Z.ltb_ge; lia).
  replace (len plaintext + 16 - 16) with (len plaintext) by ring.
  rewrite Z.ltb_irrefl. cbn [orb].
  rewrite <- (crypt_len key (Small.take 12 iv) plaintext).
  rewrite take_app_len, drop_app_len.
  rewrite (take_16 _ (mac_length _ _ _ _)), same_bytes_refl, crypt_involutive.
  reflexivity.
Qed.

(** * The further properties on concrete buffers *)

(** A working AES-256-GCM object asked to re-initialise for an algorithm
    that is no AEAD: the key is gone. *)
Lemma failed_init_loses_the_previous_key_witness :
  initialized (Small.aes256 Small.xor_aead) = true
  /\ result (encrypt Small.hello 5 Small.zero_iv [] 0
               (object (init (names := Small.names) 0 (CryptoAlgs.other 0)
                             Small.zero_key 32 1 (Small.aes256 Small.xor_aead))))
     = Throw (mbedtls_aead_error "uninitialized").
Proof.
  split; [reflexivity|].
  destruct (@failed_init_loses_the_previous_key Small.xor_aead Small.names
              (Small.aes256 Small.xor_aead) 0 (CryptoAlgs.other 0) Small.zero_key 32 1
              _ eq_refl) as (_ & _ & E & _).
  rewrite E. reflexivity.
Defined.

(** AES-128-GCM with 16 and with 32 bytes announced, for encryption and for
    decryption. *)
Lemma init_ignores_mode_and_surplus_key_size_witness :
  init (N := Small.xor_aead) (names := Small.names)
       0 CryptoAlgs.AES_128_GCM Small.zero_key 16 1 Small.fresh
  = init (N := Small.xor_aead) (names := Small.names)
         9 CryptoAlgs.AES_128_GCM Small.zero_key 32 0 Small.fresh.
Proof.
  apply (@init_ignores_mode_and_surplus_key_size Small.xor_aead Small.names
           Small.fresh 0 9 CryptoAlgs.AES_128_GCM Small.zero_key 16 32 1 0
           MBEDTLS_CIPHER_ID_AES 16 eq_refl ltac:(lia) ltac:(lia)).
Defined.

(** A tag with one bit inverted: [decrypt] returns, it does not throw. *)
Lemma decrypt_reports_by_value_encrypt_by_exception_witness :
  exists b output,
    result (decrypt Small.hello 5 Small.zero_iv (Some (flip_bit 15 0 Small.hello_tag)) [] 0
              (Small.aes256 Small.xor_aead)) = Ok (b, output)
    /\ object (decrypt Small.hello 5 Small.zero_iv (Some (flip_bit 15 0 Small.hello_tag)) [] 0
                 (Small.aes256 Small.xor_aead)) = Small.aes256 Small.xor_aead.
Proof.
  apply (proj1 (@decrypt_reports_by_value_encrypt_by_exception Small.xor_aead
                  (Small.aes256 Small.xor_aead) Small.hello 5 Small.zero_iv
                  (Some (flip_bit 15 0 Small.hello_tag)) [] 0 eq_refl)).
Defined.


(** An uninitialized object given a tag that is not null. *)
Lemma tag_at_end_uninitialized_throws_first_witness :
  TagAtEnd.decrypt (Small.hello ++ Small.hello_tag) 21 Small.zero_iv (Some Small.hello_tag)
                   [] 0 (@TagAtEnd.Build_CipherContextAEAD Small.xor_aead false None)
  = (Throw (mbedtls_aead_error "uninitialized"),
     @TagAtEnd.Build_CipherContextAEAD Small.xor_aead false None, []).
Proof.
  apply (proj2 (@tag_at_end_uninitialized_throws_first Small.xor_aead
                  (@TagAtEnd.Build_CipherContextAEAD Small.xor_aead false None)
                  (Small.hello ++ Small.hello_tag) 21 Small.zero_iv (Some Small.hello_tag)
                  [] 0 eq_refl)).
Defined.

(** Five bytes of plaintext: room for 21 bytes is announced. *)
Lemma tag_at_end_encrypt_room_for_tag_witness :
  calls (TagAtEnd.encrypt Small.hello 5 Small.zero_iv [] 0 Small.keyed)
  = [call_cipher_auth_encrypt_ext 12 0 5 21 16].
Proof.
  apply (proj1 (@tag_at_end_encrypt_room_for_tag Small.xor_aead Small.keyed Small.hello 5
                  Small.zero_iv [] 0 eq_refl ltac:(lia))).
Defined.

(** Twenty-one bytes of input: room for 5 bytes is announced. *)
Lemma tag_at_end_decrypt_plaintext_size_witness :
  calls (TagAtEnd.decrypt (Small.hello ++ Small.hello_tag) 21 Small.zero_iv None [] 0
                          Small.keyed)
  = [call_cipher_auth_decrypt_ext 12 0 21 5 16].
Proof.
  apply (proj1 (@tag_at_end_decrypt_plaintext_size Small.xor_aead Small.keyed
                  (Small.hello ++ Small.hello_tag) 21 Small.zero_iv [] 0
                  eq_refl ltac:(lia))).
Defined.

(** [hello] through [encrypt] and back through [decrypt]. *)
Lemma tag_at_end_round_trip_witness :
  result (TagAtEnd.encrypt Small.hello 5 Small.zero_iv [] 0 Small.keyed)
  = Ok (Small.hello ++ Small.hello_tag)
  /\ result (TagAtEnd.decrypt (Small.hello ++ Small.hello_tag) 21 Small.zero_iv None [] 0
                              Small.keyed)
     = Ok (true, Small.hello).
Proof.
  split; [reflexivity|].
  apply (@tag_at_end_round_trip Small.xor_aead Small.keyed Small.zero_iv [] Small.hello
           (Small.hello ++ Small.hello_tag)
           xor_aead_cipher_layer_correct eq_refl ltac:(vm_compute; reflexivity) eq_refl).
Defined.

(** A ChaCha20-Poly1305 object re-initialised for AES-192-GCM with 32 bytes
    announced: the old context is freed, then 192 bits are set up. *)
Lemma init_setup_calls_witness :
  calls (init (N := Small.xor_aead) (names := Small.names)
              0 CryptoAlgs.AES_192_GCM Small.zero_key 32 1 (Small.chacha Small.xor_aead))
  = [call_chachapoly_free; call_gcm_init; call_gcm_setkey MBEDTLS_CIPHER_ID_AES 192].
Proof.
  destruct (@init_setup_calls Small.xor_aead Small.names (Small.chacha Small.xor_aead)
              0 CryptoAlgs.AES_192_GCM Small.zero_key 32 1 MBEDTLS_CIPHER_ID_AES 24
              eq_refl ltac:(lia)) as [(_ & C & _) | (D & _)];
    [exact C | discriminate D].
Defined.

(** An object initialised for AES-256-GCM and then for ChaCha20-Poly1305. *)
Lemma destructor_frees_the_bound_backend_witness :
  calls (destructor
           (after (names := Small.names)
              [do_init 0 CryptoAlgs.AES_256_GCM Small.zero_key 32 1;
               do_init 0 CryptoAlgs.CHACHA20_POLY1305 Small.counting_key 32 1]
              (Small.fresh (N := Small.xor_aead))))
  = [call_chachapoly_free].
Proof.
  destruct (@destructor_frees_the_bound_backend Small.xor_aead Small.names
              [do_init 0 CryptoAlgs.AES_256_GCM Small.zero_key 32 1;
               do_init 0 CryptoAlgs.CHACHA20_POLY1305 Small.counting_key 32 1]
              None None (CryptoAlgs.other 0) to_gcm_encrypt to_gcm_decrypt eq_refl)
    as (_ & C & _).
  exact C.
Defined.
